(** * VerifAI mobile client: a shallow embedding and its checked properties

    The development follows the layout of the repository:
    - [JS]               the fragment of JavaScript values the client relies on
                         (UTF-16 strings, truthiness, [String.prototype.trim],
                         IEEE-754 comparison);
    - [Constants]        [mobile/src/config/constants.ts];
    - the interfaces of [services/api.ts] ([VerifyRequest], [Evidence], ...);
    - [Async]            asynchronous client code as a tree of effects
                         (axios calls, alerts, state setters, navigation) with
                         [try]/[catch]/[finally];
    - [APIService]       the HTTP call wrapper of [services/api.ts];
    - [InputScreen], [ResultScreen]   the two screens;
    - [VerdictSynthesizer]   the backend scoring function, which the repository
                         only documents. *)

From Stdlib Require Import List String Ascii Bool ZArith NArith Lia QArith Qminmax Floats.
Import ListNotations.

Set Implicit Arguments.

(** A decimal literal such as [0.8] denotes the nearest binary64 value, in
    JavaScript as here. *)
Set Warnings "-inexact-float".

(* ------------------------------------------------------------------ *)
(** ** JavaScript values *)

Module JS.

(** A JavaScript string is a sequence of UTF-16 code units; [length] is the
    number of code units, as [String.prototype.length] reports it. *)
Definition jsstring := list N.

(** ASCII literals of the source text. *)
Definition js (s : string) : jsstring :=
  map N_of_ascii (list_ascii_of_string s).

Definition jsstring_eq_dec (a b : jsstring) : {a = b} + {a <> b} :=
  list_eq_dec N.eq_dec a b.

(** [ToBoolean] on strings: only the empty string is falsy. *)
Definition truthy (s : jsstring) : bool :=
  match s with
  | [] => false
  | _ :: _ => true
  end.

(** [x || d] where [x] is a string-valued property that may be missing
    ([undefined] is falsy, and so is the empty string). *)
Definition or_default (x : option jsstring) (d : jsstring) : jsstring :=
  match x with
  | Some s => if truthy s then s else d
  | None => d
  end.

(** ECMAScript [WhiteSpace] and [LineTerminator] code units, the characters
    [trim] strips. *)
Definition is_whitespace (c : N) : bool :=
  ((9 <=? c) && (c <=? 13) (* TAB LF VT FF CR *)
   || (c =? 32)            (* SPACE *)
   || (c =? 160)           (* NO-BREAK SPACE *)
   || (c =? 5760)          (* U+1680 *)
   || (8192 <=? c) && (c <=? 8202) (* U+2000 .. U+200A *)
   || (c =? 8232) || (c =? 8233)   (* LS, PS *)
   || (c =? 8239)          (* U+202F *)
   || (c =? 8287)          (* U+205F *)
   || (c =? 12288)         (* U+3000 *)
   || (c =? 65279))%N.     (* U+FEFF *)

Fixpoint trimStart (s : jsstring) : jsstring :=
  match s with
  | [] => []
  | c :: rest => if is_whitespace c then trimStart rest else s
  end.

Definition trimEnd (s : jsstring) : jsstring := rev (trimStart (rev s)).

Definition trim (s : jsstring) : jsstring := trimEnd (trimStart s).

(** A JavaScript number is an IEEE-754 binary64 value; [a >= b] is the
    IEEE comparison, false as soon as one side is NaN. *)
Definition number := float.

Definition ge (a b : number) : bool := (b <=? a)%float.
Definition lt (a b : number) : bool := (a <? b)%float.

End JS.

Import JS.

(* ------------------------------------------------------------------ *)
(** ** [mobile/src/config/constants.ts] *)

Module Constants.

Definition API_URL (__DEV__ : bool) : jsstring :=
  if __DEV__
  then js "http://localhost:8000/api/v1"
  else js "https://api.verifai.com/api/v1".

Definition API_TIMEOUT : Z := 30000.
Definition POLLING_INTERVAL : Z := 2000.

Definition MAX_CLAIM_LENGTH : nat := 2000.
Definition MAX_FILE_SIZE : Z := 10 * 1024 * 1024.

(** The object literal [VERDICT_COLORS]: its own properties, in source order. *)
Definition VERDICT_COLORS : list (jsstring * jsstring) :=
  [(js "TRUE", js "#10b981");
   (js "FALSE", js "#ef4444");
   (js "MISLEADING", js "#f59e0b");
   (js "UNVERIFIED", js "#6b7280");
   (js "NEEDS_CONTEXT", js "#3b82f6")].

(** A decimal literal denotes the nearest binary64 value, in JavaScript as
    here. *)
Module CONFIDENCE_THRESHOLDS.
Definition HIGH : number := 0.8%float.
Definition MEDIUM : number := 0.5%float.
Definition LOW : number := 0.3%float.
End CONFIDENCE_THRESHOLDS.

End Constants.

(* ------------------------------------------------------------------ *)
(** ** The interfaces of [services/api.ts] *)

Module VerifyRequest.
Record t := mk {
  claim : jsstring;
  language : option jsstring;
  media_url : option jsstring
}.
End VerifyRequest.

Module Evidence.
Record t := mk {
  source : jsstring;
  title : jsstring;
  snippet : jsstring;
  url : jsstring;
  relevance_score : number
}.
End Evidence.

Module Source.
Record t := mk {
  url : jsstring;
  title : jsstring;
  credibility : number
}.
End Source.

Module MediaAnalysis.
Record t := mk {
  is_manipulated : bool;
  confidence : number;
  findings : list jsstring
}.
End MediaAnalysis.

Inductive Verdict := TRUE | FALSE | MISLEADING | UNVERIFIED | NEEDS_CONTEXT.

Module VerificationResult.
Record t := mk {
  id : jsstring;
  claim : jsstring;
  verdict : Verdict;
  confidence : number;
  evidence : list Evidence.t;
  reasoning : jsstring;
  sources : list Source.t;
  media_analysis : option MediaAnalysis.t;
  created_at : jsstring
}.
End VerificationResult.

(** The payload of [GET /claims/{id}/status] and of [GET /health]. *)
Module ClaimStatus.
Record t := mk {
  status : jsstring;
  result : option VerificationResult.t
}.
End ClaimStatus.

Module Health.
Record t := mk { status : jsstring }.
End Health.

(* ------------------------------------------------------------------ *)
(** ** Errors *)

(** The body of a non-2xx response, as far as the client looks into it: the
    error convention types [detail] as a string, and the property may be
    missing. *)
Record error_body := { detail : option jsstring }.

(** [error.response] of an axios error. [data] is [None] when the body is
    [null] or [undefined], where reading a property raises a [TypeError]. *)
Record error_response := {
  status : Z;
  data : option error_body
}.

(** What axios rejects with: [response] is set when the server answered with a
    status outside 2xx, [request] when the request was sent (it is set as well
    whenever [response] is), and neither when the request could not be set up. *)
Record axios_error := {
  response : option error_response;
  request : bool;
  axios_message : jsstring
}.

Inductive error_name := Error_ | TypeError_.

(** An [Error] object built by the client or by the engine. *)
Record js_error := {
  name : error_name;
  message : jsstring
}.

Definition new_Error (msg : jsstring) : js_error :=
  {| name := Error_; message := msg |}.

(** The message text of the engine's [TypeError] is implementation-defined;
    nothing below depends on it. *)
Definition new_TypeError : js_error :=
  {| name := TypeError_;
     message := js "Cannot read property 'detail' of undefined" |}.

(** A [catch (error: any)] clause receives whatever was thrown. *)
Inductive thrown :=
| ThrownAxios (e : axios_error)
| ThrownError (e : js_error).

Definition thrown_response (error : thrown) : option error_response :=
  match error with
  | ThrownAxios e => response e
  | ThrownError _ => None
  end.

Definition thrown_request (error : thrown) : bool :=
  match error with
  | ThrownAxios e => request e
  | ThrownError _ => false
  end.

Definition thrown_message (error : thrown) : jsstring :=
  match error with
  | ThrownAxios e => axios_message e
  | ThrownError e => message e
  end.

(** [error.response?.data?.detail] *)
Definition optional_detail (error : thrown) : option jsstring :=
  match thrown_response error with
  | Some r =>
      match data r with
      | Some b => detail b
      | None => None
      end
  | None => None
  end.

(* ------------------------------------------------------------------ *)
(** ** Asynchronous client code *)

Module Async.

Inductive http_method := GET | POST.

Record axios_request := {
  method : http_method;
  url : jsstring;
  body : option VerifyRequest.t;
  timeout : option Z;                   (* [None]: axios' default, no timeout *)
  headers : list (jsstring * jsstring)
}.

(** The payload type an endpoint is declared to answer with. *)
Inductive endpoint := EVerify | EClaimStatus | EClaim | EHealth.

Definition payload (e : endpoint) : Type :=
  match e with
  | EVerify | EClaim => VerificationResult.t
  | EClaimStatus => ClaimStatus.t
  | EHealth => Health.t
  end.

(** The promise axios returns settles one way or the other: fulfilled with
    a 2xx response, of which the client reads [data] only, or rejected. *)
Inductive axios_result (D : Type) :=
| Fulfilled (response_data : D)
| Rejected (error : axios_error).
Arguments Fulfilled {D} _.
Arguments Rejected {D} _.

(** A computation that returns, throws, or performs an effect and goes on. *)
Inductive prog (A : Type) : Type :=
| Ret (a : A)
| Throw (error : thrown)
| Axios (e : endpoint) (rq : axios_request)
        (k : axios_result (payload e) -> prog A)
| AlertAlert (title msg : jsstring) (k : prog A)
| SetLoading (b : bool) (k : prog A)
| Navigate (screen : jsstring) (result : VerificationResult.t) (k : prog A).
Arguments Ret {A} _.
Arguments Throw {A} _.
Arguments Axios {A} _ _ _.
Arguments AlertAlert {A} _ _ _.
Arguments SetLoading {A} _ _.
Arguments Navigate {A} _ _ _.

Fixpoint bind {A B} (p : prog A) (f : A -> prog B) : prog B :=
  match p with
  | Ret a => f a
  | Throw error => Throw error
  | Axios e rq k => Axios e rq (fun r => bind (k r) f)
  | AlertAlert t m k => AlertAlert t m (bind k f)
  | SetLoading b k => SetLoading b (bind k f)
  | Navigate s r k => Navigate s r (bind k f)
  end.

(** [try { p } catch (error) { h error }] *)
Fixpoint try_catch {A} (p : prog A) (h : thrown -> prog A) : prog A :=
  match p with
  | Ret a => Ret a
  | Throw error => h error
  | Axios e rq k => Axios e rq (fun r => try_catch (k r) h)
  | AlertAlert t m k => AlertAlert t m (try_catch k h)
  | SetLoading b k => SetLoading b (try_catch k h)
  | Navigate s r k => Navigate s r (try_catch k h)
  end.

(** [try { p } finally { f }]: [f] runs on both exits and the exit of [p]
    stands, unless [f] throws itself. *)
Fixpoint try_finally {A} (p : prog A) (f : prog unit) : prog A :=
  match p with
  | Ret a => bind f (fun _ => Ret a)
  | Throw error => bind f (fun _ => Throw error)
  | Axios e rq k => Axios e rq (fun r => try_finally (k r) f)
  | AlertAlert t m k => AlertAlert t m (try_finally k f)
  | SetLoading b k => SetLoading b (try_finally k f)
  | Navigate s r k => Navigate s r (try_finally k f)
  end.

Notation "x <- p ;; q" := (bind p (fun x => q))
  (at level 61, p at next level, right associativity).
Notation "p ;; q" := (bind p (fun _ => q))
  (at level 61, right associativity).

(** [await axios.get/post(...)]: the response, or the rejection thrown. *)
Definition await_axios (e : endpoint) (rq : axios_request) : prog (payload e) :=
  Axios e rq (fun r =>
    match r with
    | Fulfilled d => Ret d
    | Rejected error => Throw (ThrownAxios error)
    end).

Definition alert (title msg : jsstring) : prog unit := AlertAlert title msg (Ret tt).
Definition setLoading (b : bool) : prog unit := SetLoading b (Ret tt).
Definition navigate (screen : jsstring) (result : VerificationResult.t) : prog unit :=
  Navigate screen result (Ret tt).

(** *** Running a computation against the network *)

(** The backend and the network between, as the client sees them: how each
    request settles. *)
Definition network := forall e : endpoint, axios_request -> axios_result (payload e).

Inductive event :=
| EvAxios (rq : axios_request)
| EvAlert (title msg : jsstring)
| EvSetLoading (b : bool)
| EvNavigate (screen : jsstring) (result : VerificationResult.t).

Inductive outcome (A : Type) :=
| Returned (a : A)
| Raised (error : thrown).
Arguments Returned {A} _.
Arguments Raised {A} _.

Fixpoint run {A} (net : network) (p : prog A) : list event * outcome A :=
  match p with
  | Ret a => ([], Returned a)
  | Throw error => ([], Raised error)
  | Axios e rq k =>
      let (tr, o) := run net (k (net e rq)) in (EvAxios rq :: tr, o)
  | AlertAlert t m k =>
      let (tr, o) := run net k in (EvAlert t m :: tr, o)
  | SetLoading b k =>
      let (tr, o) := run net k in (EvSetLoading b :: tr, o)
  | Navigate s r k =>
      let (tr, o) := run net k in (EvNavigate s r :: tr, o)
  end.

Definition trace {A} (net : network) (p : prog A) : list event := fst (run net p).
Definition result_of {A} (net : network) (p : prog A) : outcome A := snd (run net p).

End Async.

Import Async.

(* ------------------------------------------------------------------ *)
(** ** [services/api.ts]: class [APIService] *)

Module APIService.

Section Service.

(** [this.baseURL], set to [API_URL] by the constructor. *)
Variable baseURL : jsstring.

Definition verify (request : VerifyRequest.t) : prog VerificationResult.t :=
  try_catch
    (await_axios EVerify
       {| method := POST;
          url := baseURL ++ js "/verify";
          body := Some request;
          timeout := Some 30000%Z;
          headers := [(js "Content-Type", js "application/json")] |})
    (fun error =>
       match thrown_response error with
       | Some r =>
           match data r with
           | Some b => Throw (ThrownError (new_Error (or_default (detail b) (js "Verification failed"))))
           | None => Throw (ThrownError new_TypeError)
           end
       | None =>
           if thrown_request error
           then Throw (ThrownError (new_Error (js "Network error - please check your connection")))
           else Throw (ThrownError (new_Error (js "Failed to verify claim")))
       end).

Definition getClaimStatus (claimId : jsstring) : prog ClaimStatus.t :=
  try_catch
    (await_axios EClaimStatus
       {| method := GET;
          url := baseURL ++ js "/claims/" ++ claimId ++ js "/status";
          body := None;
          timeout := None;
          headers := [] |})
    (fun error =>
       Throw (ThrownError (new_Error
         (or_default (optional_detail error) (js "Failed to get claim status"))))).

Definition getClaim (claimId : jsstring) : prog VerificationResult.t :=
  try_catch
    (await_axios EClaim
       {| method := GET;
          url := baseURL ++ js "/claims/" ++ claimId;
          body := None;
          timeout := None;
          headers := [] |})
    (fun error =>
       Throw (ThrownError (new_Error
         (or_default (optional_detail error) (js "Failed to get claim"))))).

Definition healthCheck : prog Health.t :=
  try_catch
    (await_axios EHealth
       {| method := GET;
          url := baseURL ++ js "/health";
          body := None;
          timeout := None;
          headers := [] |})
    (fun _ => Throw (ThrownError (new_Error (js "Backend is not responding")))).

End Service.

(** [export const apiService = new APIService()] *)
Definition apiService_baseURL (__DEV__ : bool) : jsstring := Constants.API_URL __DEV__.

End APIService.

(* ------------------------------------------------------------------ *)
(** ** [screens/InputScreen.tsx] *)

Module InputScreen.

(** [useState('')], [useState(false)] *)
Record state := {
  claim : jsstring;
  loading : bool
}.

Definition initial : state := {| claim := []; loading := false |}.

Definition setClaim (text : jsstring) (s : state) : state :=
  {| claim := text; loading := loading s |}.

Section Screen.

Variable baseURL : jsstring.

(** [handleVerify] closes over the [claim] of the render it belongs to. *)
Definition handleVerify (claim : jsstring) : prog unit :=
  if negb (truthy (trim claim)) then
    alert (js "Error") (js "Please enter a claim")
  else
    setLoading true ;;
    try_finally
      (try_catch
         (result <- APIService.verify baseURL
                      {| VerifyRequest.claim := trim claim;
                         VerifyRequest.language := Some (js "en-US");
                         VerifyRequest.media_url := None |} ;;
          navigate (js "Result") result)
         (fun error =>
            alert (js "Error")
                  (or_default (Some (thrown_message error)) (js "Verification failed"))))
      (setLoading false).

(** *** The rendered tree, as far as it reacts to the user *)

(** [<TextInput maxLength={2000} editable={!loading} onChangeText={setClaim}>] *)
Definition textInput_maxLength : nat := 2000.
Definition textInput_editable (s : state) : bool := negb (loading s).

(** [disabled={!claim.trim() || loading}] on the verify button. *)
Definition verifyButton_disabled (s : state) : bool :=
  negb (truthy (trim (claim s))) || loading s.

(** [{claim && !loading && (<TouchableOpacity ... Clear>)}] *)
Definition clearButton_rendered (s : state) : bool :=
  truthy (claim s) && negb (loading s).

(** React Native's [TextInput] is not part of the repository. What it does
    with text beyond [maxLength] (refuse the edit, cut the insertion)
    differs by platform; [textInput_limit m current attempted] is the text
    it hands to [onChangeText]. *)
Variable textInput_limit : nat -> jsstring -> jsstring -> jsstring.

Inductive action :=
| ChangeText (attempted : jsstring)
| PressVerify (net : network)
| PressClear.

Definition apply_event (s : state) (ev : event) : state :=
  match ev with
  | EvSetLoading b => {| claim := claim s; loading := b |}
  | _ => s
  end.

(** One user action: the next state and the effects it caused. *)
Definition step (s : state) (a : action) : state * list event :=
  match a with
  | ChangeText attempted =>
      if textInput_editable s
      then (setClaim (textInput_limit textInput_maxLength (claim s) attempted) s, [])
      else (s, [])
  | PressVerify net =>
      if verifyButton_disabled s then (s, [])
      else
        let tr := trace net (handleVerify (claim s)) in
        (fold_left apply_event tr s, tr)
  | PressClear =>
      if clearButton_rendered s then (setClaim [] s, []) else (s, [])
  end.

Fixpoint session (s : state) (actions : list action) : state * list event :=
  match actions with
  | [] => (s, [])
  | a :: rest =>
      let (s1, tr1) := step s a in
      let (s2, tr2) := session s1 rest in
      (s2, tr1 ++ tr2)
  end.

(** The claims sent to the backend during a session. *)
Definition submitted_claims (tr : list event) : list jsstring :=
  flat_map (fun ev =>
              match ev with
              | EvAxios rq =>
                  match body rq with
                  | Some r => [VerifyRequest.claim r]
                  | None => []
                  end
              | _ => []
              end) tr.

End Screen.

End InputScreen.

(* ------------------------------------------------------------------ *)
(** ** [screens/ResultScreen.tsx] *)

Module ResultScreen.

Definition getConfidenceLabel (result : VerificationResult.t) : jsstring :=
  if ge (VerificationResult.confidence result) 0.8%float then js "High Confidence"
  else if ge (VerificationResult.confidence result) 0.5%float then js "Medium Confidence"
  else js "Low Confidence".

(** The string a verdict is at run time. *)
Definition Verdict_name (v : Verdict) : jsstring :=
  match v with
  | TRUE => js "TRUE"
  | FALSE => js "FALSE"
  | MISLEADING => js "MISLEADING"
  | UNVERIFIED => js "UNVERIFIED"
  | NEEDS_CONTEXT => js "NEEDS_CONTEXT"
  end.

(** [obj[key]] on an object literal, for a key that is one of its own
    properties or names no property at all. *)
Fixpoint property (obj : list (jsstring * jsstring)) (key : jsstring) : option jsstring :=
  match obj with
  | [] => None
  | (k, v) :: rest => if jsstring_eq_dec k key then Some v else property rest key
  end.

Definition getVerdictColor (result : VerificationResult.t) : jsstring :=
  or_default
    (property Constants.VERDICT_COLORS (Verdict_name (VerificationResult.verdict result)))
    (js "#6b7280").

(** What the screen does to the world: open a URL, log, navigate. *)
Inductive effect :=
| LinkingOpenURL (url : jsstring)
| ConsoleError (msg url : jsstring)
| NavigationNavigate (screen : jsstring).

(** [Linking.openURL(url).catch(() => console.error('Failed to open URL:', url))];
    [linking url] tells whether the promise of [Linking.openURL] is fulfilled. *)
Definition openURL (linking : jsstring -> bool) (url : jsstring) : list effect :=
  LinkingOpenURL url
  :: (if linking url then [] else [ConsoleError (js "Failed to open URL:") url]).

(** [{result.evidence && result.evidence.length > 0 && (...)}], and the same
    for the sources. *)
Definition evidence_rendered (result : VerificationResult.t) : bool :=
  Nat.ltb 0 (List.length (VerificationResult.evidence result)).

Definition sources_rendered (result : VerificationResult.t) : bool :=
  Nat.ltb 0 (List.length (VerificationResult.sources result)).

(** The touchable elements: the 'View Source' link of the evidence card with
    key [index], the source card with key [index], the bottom button. *)
Inductive press :=
| PressEvidenceLink (index : nat)
| PressSourceCard (index : nat)
| PressNewVerification.

(** [onPress] of the element pressed; an element that is not rendered cannot
    be pressed. *)
Definition onPress (result : VerificationResult.t) (linking : jsstring -> bool)
           (p : press) : list effect :=
  match p with
  | PressEvidenceLink index =>
      if evidence_rendered result then
        match nth_error (VerificationResult.evidence result) index with
        | Some evidence => openURL linking (Evidence.url evidence)
        | None => []
        end
      else []
  | PressSourceCard index =>
      if sources_rendered result then
        match nth_error (VerificationResult.sources result) index with
        | Some source => openURL linking (Source.url source)
        | None => []
        end
      else []
  | PressNewVerification => [NavigationNavigate (js "Input")]
  end.

End ResultScreen.

(* ------------------------------------------------------------------ *)
(** ** [App.tsx]: the navigator *)

Module App.

(** [<Stack.Navigator initialRouteName="Input">] *)
Definition initialRouteName : jsstring := js "Input".

(** The [name] of each [<Stack.Screen>], in source order. *)
Definition screens : list jsstring := [js "Input"; js "Result"].

End App.

(* ------------------------------------------------------------------ *)
(** ** The verdict synthesizer of the backend *)

Module VerdictSynthesizer.

Local Open Scope Q_scope.

(** Modelled from the spec: the polarity an adapter tags its evidence with
    (section 4.3, step 1). *)
Inductive Polarity := Supporting | Contradicting | Neutral.

(** Modelled from the spec: the backend's Evidence record (section 3), with
    the polarity tag that section 4.3 makes part of the provider-supplied
    metadata. The backend is not among the sources. *)
Record Evidence := {
  source : jsstring;
  title : jsstring;
  snippet : jsstring;
  url : jsstring;
  relevanceScore : Q;
  polarity : Polarity
}.

(** Modelled from the spec: the backend's Source record (section 3). *)
Record Source := {
  sourceUrl : jsstring;
  sourceTitle : jsstring;
  credibility : Q
}.

(** Modelled from the spec: the backend's MediaAnalysis record (section 3). *)
Record MediaAnalysis := {
  isManipulated : bool;
  confidence : Q;
  findings : list jsstring
}.

(** Modelled from the spec: the backend's VerificationResult (section 3). *)
Record VerificationResult := {
  verdict : Verdict;
  resultConfidence : Q;
  evidence : list Evidence;
  sources : list Source;
  reasoning : jsstring;
  mediaAnalysis : option MediaAnalysis
}.

(** Modelled from the spec: what section 4.3 names and leaves open, the
    constants of the scoring function and the parts it delegates. The two
    verdict thresholds, 0.6 and -0.6, are fixed by the spec and are not
    parameters. *)
Record Params := {
  bucket : Evidence -> Polarity;             (* step 1 *)
  epsilon : Q;                               (* step 3 *)
  minEvidenceCount : nat;                    (* step 4 *)
  substantialWeight : Q;                     (* step 4 *)
  balanceBand : Q;                           (* step 4 *)
  evidenceCountNormalizer : Q;               (* step 5 *)
  citations : list Evidence -> list Source;  (* the deduplicated sources *)
  qualityFactor : list Source -> Q;          (* step 5 *)
  mediaHighConfidence : Q;                   (* step 6 *)
  explain : Verdict -> Q -> list Evidence -> jsstring -> jsstring
}.

Section Synthesizer.

Variable p : Params.

Definition is_polarity (a b : Polarity) : bool :=
  match a, b with
  | Supporting, Supporting | Contradicting, Contradicting | Neutral, Neutral => true
  | _, _ => false
  end.

(** Modelled from the spec: steps 1 and 2 of section 4.3, the weight of a
    bucket is the sum of the relevance scores in it. *)
Definition weight (side : Polarity) (ev : list Evidence) : Q :=
  fold_right (fun e acc => relevanceScore e + acc) 0
             (filter (fun e => is_polarity (bucket p e) side) ev).

(** Modelled from the spec: [supportWeight] and [contradictWeight] of step 2. *)
Definition supportWeight := weight Supporting.
Definition contradictWeight := weight Contradicting.

(** Modelled from the spec: step 3 of section 4.3. *)
Definition netScore (ev : list Evidence) : Q :=
  (supportWeight ev - contradictWeight ev)
  / (supportWeight ev + contradictWeight ev + epsilon p).

Definition Qleb (a b : Q) : bool := Qle_bool a b.

Definition Qabs_diff (a b : Q) : Q := if Qleb a b then b - a else a - b.

(** Modelled from the spec: step 4 of section 4.3, the verdict the text
    evidence alone leads to. *)
Definition textVerdict (ev : list Evidence) : Verdict :=
  if Qleb (6 # 10) (netScore ev) then TRUE
  else if Qleb (netScore ev) (- (6 # 10)) then FALSE
  else if Nat.ltb (List.length ev) (minEvidenceCount p) then UNVERIFIED
  else if Qleb (substantialWeight p) (supportWeight ev)
          && Qleb (substantialWeight p) (contradictWeight ev)
          && Qleb (Qabs_diff (supportWeight ev) (contradictWeight ev)) (balanceBand p)
       then NEEDS_CONTEXT
       else MISLEADING.

(** Modelled from the spec: step 5 of section 4.3. *)
Definition confidenceOf (ev : list Evidence) : Q :=
  Qmin 1 ((supportWeight ev + contradictWeight ev) / evidenceCountNormalizer p)
  * qualityFactor p (citations p ev).

(** Modelled from the spec: the condition of step 6, a media analysis that is
    present, reports manipulation and does so with high confidence. *)
Definition highConfidenceManipulation (media : option MediaAnalysis) : bool :=
  match media with
  | Some m => isManipulated m && Qleb (mediaHighConfidence p) (confidence m)
  | None => false
  end.

(** Modelled from the spec: step 6 of section 4.3, a verdict above
    MISLEADING comes down to it and the others stay. *)
Definition cap (v : Verdict) : Verdict :=
  match v with
  | TRUE => MISLEADING
  | _ => v
  end.

(** Modelled from the spec: the function of section 4.3 as a whole. *)
Definition synthesize (ev : list Evidence) (media : option MediaAnalysis)
           (claimText : jsstring) : VerificationResult :=
  let v := if highConfidenceManipulation media
           then cap (textVerdict ev) else textVerdict ev in
  let c := confidenceOf ev in
  {| verdict := v;
     resultConfidence := c;
     evidence := ev;
     sources := citations p ev;
     reasoning := explain p v c ev claimText;
     mediaAnalysis := media |}.

End Synthesizer.

End VerdictSynthesizer.

(* ------------------------------------------------------------------ *)
(** ** Vocabulary of the statements *)

Module Statements.

(** Every request to endpoint [e] is rejected with [error]. *)
Definition rejects (net : network) (e : endpoint) (error : axios_error) : Prop :=
  forall rq, net e rq = Rejected error.

(** Every request to endpoint [e] is answered 2xx with [d]. *)
Definition answers (net : network) (e : endpoint) (d : payload e) : Prop :=
  forall rq, net e rq = Fulfilled d.

(** The computation ends by throwing [new Error(msg)]. *)
Definition throws_Error {A} (net : network) (p : prog A) (msg : jsstring) : Prop :=
  result_of net p = Raised (ThrownError (new_Error msg)).

(** The server answered outside 2xx with a body that carries [d] as its
    [detail] ([None]: no such property). *)
Definition server_reported (error : axios_error) (d : option jsstring) : Prop :=
  exists r b, response error = Some r /\ data r = Some b /\ detail b = d.

(** The request went out and nothing came back. *)
Definition no_connection (error : axios_error) : Prop :=
  response error = None /\ request error = true.

(** The request could not even be sent. *)
Definition not_sent (error : axios_error) : Prop :=
  response error = None /\ request error = false.

(** A response, when there is one, has a body to read [detail] from. *)
Definition body_present (error : axios_error) : Prop :=
  forall r, response error = Some r -> data r <> None.

(** The reading of the error convention with two conditions only: whatever
    the failure, the message is the server's [detail] (or [fallback] without
    one) or else [offline]. *)
Definition two_conditions {A} (p : prog A) (e : endpoint)
           (fallback offline : jsstring) : Prop :=
  forall net error,
    rejects net e error ->
    exists msg,
      throws_Error net p msg /\
      ((exists d, server_reported error d /\
                  msg = match d with Some s => s | None => fallback end)
       \/ (response error = None /\ msg = offline)).

(** A lost connection can be told from a failure the server reported
    without saying why. *)
Definition no_connection_distinct {A} (p : prog A) (e : endpoint) : Prop :=
  forall net_off net_srv error_off error_srv,
    rejects net_off e error_off -> no_connection error_off ->
    rejects net_srv e error_srv -> server_reported error_srv None ->
    result_of net_off p <> result_of net_srv p.

Definition whitespace_only (s : jsstring) : bool := forallb is_whitespace s.

(** The requests that went to the backend. *)
Definition requests (tr : list event) : list axios_request :=
  flat_map (fun ev => match ev with EvAxios rq => [rq] | _ => [] end) tr.

(** The request [verify] builds for [POST /verify]. *)
Definition post_verify (baseURL : jsstring) (req : VerifyRequest.t) : axios_request :=
  {| method := POST;
     url := baseURL ++ js "/verify";
     body := Some req;
     timeout := Some 30000%Z;
     headers := [(js "Content-Type", js "application/json")] |}.

(** The request [handleVerify] hands to [verify]. *)
Definition submission (claim : jsstring) : VerifyRequest.t :=
  {| VerifyRequest.claim := trim claim;
     VerifyRequest.language := Some (js "en-US");
     VerifyRequest.media_url := None |}.

Definition is_poll (rq : axios_request) : Prop :=
  method rq = GET.

(** [rq] is what [handleVerify] sends for [claim]: the claim has something
    besides whitespace, and the request is the POST of its trimmed text. *)
Definition trimmed_submission (baseURL claim : jsstring) (rq : axios_request) : Prop :=
  trim claim <> []
  /\ whitespace_only claim = false
  /\ whitespace_only (trim claim) = false
  /\ rq = post_verify baseURL (submission claim)
  /\ body rq = Some {| VerifyRequest.claim := trim claim;
                       VerifyRequest.language := Some (js "en-US");
                       VerifyRequest.media_url := None |}.

(** The text in the field fits [maxLength]. *)
Definition within_limit (s : InputScreen.state) : Prop :=
  (List.length (InputScreen.claim s) <= InputScreen.textInput_maxLength)%nat.


Definition is_request (ev : event) : bool :=
  match ev with EvAxios _ => true | _ => false end.

Definition is_alert (ev : event) : bool :=
  match ev with EvAlert _ _ => true | _ => false end.

Definition is_navigation (ev : event) : bool :=
  match ev with EvNavigate _ _ => true | _ => false end.

Definition is_PressVerify (a : InputScreen.action) : bool :=
  match a with InputScreen.PressVerify _ => true | _ => false end.

(** How many events of a kind a trace holds. *)
Definition count (kind : event -> bool) (tr : list event) : nat :=
  List.length (filter kind tr).

(** The screens a trace navigates to. *)
Definition destinations (tr : list event) : list jsstring :=
  flat_map (fun ev => match ev with EvNavigate screen _ => [screen] | _ => [] end) tr.

(** What [verify] throws for what it caught. *)
Definition verify_rethrown (error : thrown) : thrown :=
  ThrownError
    match thrown_response error with
    | Some r =>
        match data r with
        | Some b => new_Error (or_default (detail b) (js "Verification failed"))
        | None => new_TypeError
        end
    | None =>
        if thrown_request error
        then new_Error (js "Network error - please check your connection")
        else new_Error (js "Failed to verify claim")
    end.

(** The request behind [axios.get(url)]: no body, no config. *)
Definition get_request (url : jsstring) : axios_request :=
  {| method := GET; url := url; body := None; timeout := None; headers := [] |}.

End Statements.

Import Statements.

(** Concrete environments and values. *)
Module Samples.

Definition base : jsstring := Constants.API_URL true.

Definition connection_lost : axios_error :=
  {| response := None; request := true; axios_message := js "Network Error" |}.

Definition setup_failed : axios_error :=
  {| response := None; request := false; axios_message := js "Invalid URL" |}.

Definition server_error (d : option jsstring) : axios_error :=
  {| response := Some {| status := 404; data := Some {| detail := d |} |};
     request := true;
     axios_message := js "Request failed with status code 404" |}.

Definition failing (error : axios_error) : network := fun _ _ => Rejected error.

Definition flat_earth : VerificationResult.t :=
  {| VerificationResult.id := js "c-1";
     VerificationResult.claim := js "The Earth is flat";
     VerificationResult.verdict := FALSE;
     VerificationResult.confidence := 0.95%float;
     VerificationResult.evidence := [];
     VerificationResult.reasoning := js "Contradicted by every source";
     VerificationResult.sources := [];
     VerificationResult.media_analysis := None;
     VerificationResult.created_at := js "2024-01-01T00:00:00Z" |}.

Definition serving (r : VerificationResult.t) : network :=
  fun e _ =>
    match e return axios_result (payload e) with
    | EVerify | EClaim => Fulfilled r
    | EClaimStatus =>
        Fulfilled {| ClaimStatus.status := js "completed"; ClaimStatus.result := Some r |}
    | EHealth => Fulfilled {| Health.status := js "ok" |}
    end.

(** A [TextInput] that cuts what exceeds [maxLength]. *)
Definition truncating (maxLength : nat) (current attempted : jsstring) : jsstring :=
  firstn maxLength attempted.

(** One scoring function among those section 4.3 allows. *)
Definition scoring : VerdictSynthesizer.Params :=
  {| VerdictSynthesizer.bucket := VerdictSynthesizer.polarity;
     VerdictSynthesizer.epsilon := 1 # 1000;
     VerdictSynthesizer.minEvidenceCount := 2;
     VerdictSynthesizer.substantialWeight := 1 # 2;
     VerdictSynthesizer.balanceBand := 1 # 5;
     VerdictSynthesizer.evidenceCountNormalizer := 2;
     VerdictSynthesizer.citations :=
       map (fun e => {| VerdictSynthesizer.sourceUrl := VerdictSynthesizer.url e;
                        VerdictSynthesizer.sourceTitle := VerdictSynthesizer.title e;
                        VerdictSynthesizer.credibility := 9 # 10 |});
     VerdictSynthesizer.qualityFactor :=
       (fun srcs =>
          match srcs with
          | [] => 0
          | _ :: _ =>
              fold_right (fun src acc => VerdictSynthesizer.credibility src + acc) 0 srcs
              / inject_Z (Z.of_nat (List.length srcs))
          end)%Q;
     VerdictSynthesizer.mediaHighConfidence := 8 # 10;
     VerdictSynthesizer.explain := fun _ _ _ claimText => claimText |}.

Definition finding (relevance : Q) (side : VerdictSynthesizer.Polarity)
  : VerdictSynthesizer.Evidence :=
  {| VerdictSynthesizer.source := js "web-search";
     VerdictSynthesizer.title := js "Report";
     VerdictSynthesizer.snippet := js "...";
     VerdictSynthesizer.url := js "https://example.org/report";
     VerdictSynthesizer.relevanceScore := relevance;
     VerdictSynthesizer.polarity := side |}.

(** Text evidence with a net score of 0.9 under [scoring]. *)
Definition strong_support : list VerdictSynthesizer.Evidence :=
  [finding (959 # 1000) VerdictSynthesizer.Supporting;
   finding (50 # 1000) VerdictSynthesizer.Contradicting].

Definition doctored : VerdictSynthesizer.MediaAnalysis :=
  {| VerdictSynthesizer.isManipulated := true;
     VerdictSynthesizer.confidence := 95 # 100;
     VerdictSynthesizer.findings := [js "Splicing artefacts"] |}.

Definition with_confidence (c : number) : VerificationResult.t :=
  {| VerificationResult.id := VerificationResult.id flat_earth;
     VerificationResult.claim := VerificationResult.claim flat_earth;
     VerificationResult.verdict := VerificationResult.verdict flat_earth;
     VerificationResult.confidence := c;
     VerificationResult.evidence := [];
     VerificationResult.reasoning := VerificationResult.reasoning flat_earth;
     VerificationResult.sources := [];
     VerificationResult.media_analysis := None;
     VerificationResult.created_at := VerificationResult.created_at flat_earth |}.


Definition null_body_error : axios_error :=
  {| response := Some {| status := 500; data := None |};
     request := true;
     axios_message := js "Request failed with status code 500" |}.

Definition cited : VerificationResult.t :=
  {| VerificationResult.id := js "c-2";
     VerificationResult.claim := js "The Earth is flat";
     VerificationResult.verdict := FALSE;
     VerificationResult.confidence := 0.95%float;
     VerificationResult.evidence :=
       [{| Evidence.source := js "web-search";
           Evidence.title := js "Measuring the globe";
           Evidence.snippet := js "...";
           Evidence.url := js "https://example.org/globe";
           Evidence.relevance_score := 0.9%float |}];
     VerificationResult.reasoning := js "Contradicted by every source";
     VerificationResult.sources :=
       [{| Source.url := js "https://example.org";
           Source.title := js "Example";
           Source.credibility := 0.8%float |}];
     VerificationResult.media_analysis := None;
     VerificationResult.created_at := js "2024-01-01T00:00:00Z" |}.

End Samples.

(* ------------------------------------------------------------------ *)
(** ** Strings *)

Lemma truthy_nonempty (s : jsstring) : truthy s = true <-> s <> [].
Proof.
  destruct s; simpl; split; congruence.
Qed.

Lemma or_default_present (d fallback : jsstring) :
  d <> [] -> or_default (Some d) fallback = d.
Proof.
  destruct d; [congruence | reflexivity].
Qed.

Lemma trimStart_length (s : jsstring) : (List.length (trimStart s) <= List.length s)%nat.
Proof.
  induction s as [| c rest IH]; simpl; [lia |].
  destruct (is_whitespace c); simpl; lia.
Qed.

Lemma trim_length (s : jsstring) : (List.length (trim s) <= List.length s)%nat.
Proof.
  unfold trim, trimEnd.
  rewrite length_rev.
  etransitivity; [apply trimStart_length |].
  rewrite length_rev. apply trimStart_length.
Qed.

Lemma trimStart_whitespace_only (s : jsstring) :
  whitespace_only s = true -> trimStart s = [].
Proof.
  unfold whitespace_only.
  induction s as [| c rest IH]; simpl; [reflexivity |].
  destruct (is_whitespace c); simpl; [exact IH | discriminate].
Qed.

Lemma trimStart_head (s : jsstring) (c : N) (rest : jsstring) :
  trimStart s = c :: rest -> is_whitespace c = false.
Proof.
  induction s as [| a s' IH]; simpl; [discriminate |].
  destruct (is_whitespace a) eqn:Ha; [exact IH |].
  intros H. injection H as -> _. exact Ha.
Qed.

Lemma trimStart_not_whitespace_only (s : jsstring) :
  trimStart s <> [] -> whitespace_only (trimStart s) = false.
Proof.
  destruct (trimStart s) as [| c rest] eqn:E; [congruence |].
  intros _. unfold whitespace_only. simpl.
  now rewrite (trimStart_head _ E).
Qed.

Lemma whitespace_only_rev (s : jsstring) :
  whitespace_only (rev s) = whitespace_only s.
Proof.
  unfold whitespace_only.
  destruct (forallb is_whitespace s) eqn:E.
  - apply forallb_forall. intros c Hc. apply in_rev in Hc.
    rewrite forallb_forall in E. now apply E.
  - destruct (forallb is_whitespace (rev s)) eqn:E'; [| reflexivity].
    rewrite <- E. symmetry. apply forallb_forall. intros c Hc.
    rewrite forallb_forall in E'. apply E'. now apply in_rev in Hc.
Qed.

Lemma trim_whitespace_only (s : jsstring) :
  whitespace_only s = true -> trim s = [].
Proof.
  intros H. unfold trim. now rewrite (trimStart_whitespace_only _ H).
Qed.

Lemma trim_not_whitespace_only (s : jsstring) :
  trim s <> [] -> whitespace_only (trim s) = false.
Proof.
  unfold trim, trimEnd. intros H.
  rewrite whitespace_only_rev.
  apply trimStart_not_whitespace_only.
  intros E. apply H. now rewrite E.
Qed.

(* ------------------------------------------------------------------ *)
(** ** [APIService]: how failures surface *)

Section APIFailures.

Variable baseURL : jsstring.
Variable net : network.
Variable error : axios_error.

(** What [verify] ends with when the POST is rejected. *)
Lemma verify_rejected (req : VerifyRequest.t) :
  rejects net EVerify error ->
  result_of net (APIService.verify baseURL req) =
  Raised (ThrownError
    match response error with
    | Some r =>
        match data r with
        | Some b => new_Error (or_default (detail b) (js "Verification failed"))
        | None => new_TypeError
        end
    | None =>
        if request error
        then new_Error (js "Network error - please check your connection")
        else new_Error (js "Failed to verify claim")
    end).
Proof.
  intros Hrej. unfold result_of, APIService.verify. cbn.
  rewrite Hrej. cbn.
  destruct (response error) as [r |]; cbn.
  - destruct (data r); reflexivity.
  - destruct (request error); reflexivity.
Qed.

Lemma getClaimStatus_rejected (claimId : jsstring) :
  rejects net EClaimStatus error ->
  throws_Error net (APIService.getClaimStatus baseURL claimId)
    (or_default (optional_detail (ThrownAxios error)) (js "Failed to get claim status")).
Proof.
  intros Hrej. unfold throws_Error, result_of, APIService.getClaimStatus. cbn.
  now rewrite Hrej.
Qed.

Lemma getClaim_rejected (claimId : jsstring) :
  rejects net EClaim error ->
  throws_Error net (APIService.getClaim baseURL claimId)
    (or_default (optional_detail (ThrownAxios error)) (js "Failed to get claim")).
Proof.
  intros Hrej. unfold throws_Error, result_of, APIService.getClaim. cbn.
  now rewrite Hrej.
Qed.

Lemma optional_detail_server (d : option jsstring) :
  server_reported error d -> optional_detail (ThrownAxios error) = d.
Proof.
  intros (r & b & Hr & Hb & Hd). unfold optional_detail. cbn.
  now rewrite Hr, Hb.
Qed.

Lemma optional_detail_no_response :
  response error = None -> optional_detail (ThrownAxios error) = None.
Proof.
  intros Hr. unfold optional_detail. cbn. now rewrite Hr.
Qed.

End APIFailures.

(** C1, as amended. Take a rejected POST /verify whose response, when there
    is one, carries a body (not [null] or [undefined]). It falls under exactly
    one of three conditions, not two, and [verify] throws a plain [Error]
    whose message the condition fixes: the server answered, and the message
    is its [detail] when that is a non-empty string, 'Verification failed'
    when [detail] is absent or empty; the request went out and no response
    arrived, and the message is 'Network error - please check your
    connection'; the request could not be sent at all, and the message is
    'Failed to verify claim'. *)
Theorem verify_failure_three_conditions
        (baseURL : jsstring) (req : VerifyRequest.t)
        (net : network) (error : axios_error) :
  rejects net EVerify error ->
  body_present error ->
  ((exists d, server_reported error d) \/ no_connection error \/ not_sent error)
  /\ ~ ((exists d, server_reported error d) /\ no_connection error)
  /\ ~ ((exists d, server_reported error d) /\ not_sent error)
  /\ ~ (no_connection error /\ not_sent error)
  /\ (forall d, server_reported error (Some d) -> d <> [] ->
                throws_Error net (APIService.verify baseURL req) d)
  /\ (forall d, server_reported error d -> d = None \/ d = Some [] ->
                throws_Error net (APIService.verify baseURL req)
                             (js "Verification failed"))
  /\ (no_connection error ->
      throws_Error net (APIService.verify baseURL req)
                   (js "Network error - please check your connection"))
  /\ (not_sent error ->
      throws_Error net (APIService.verify baseURL req)
                   (js "Failed to verify claim"))
  /\ (exists msg, throws_Error net (APIService.verify baseURL req) msg
                  /\ msg <> []).
Proof.
  intros Hrej Hbody. unfold throws_Error.
  rewrite (verify_rejected baseURL req Hrej).
  split; [| split; [| split; [| split; [| split; [| split; [| split; [| split]]]]]]].
  - destruct (response error) as [r |] eqn:Hr.
    + destruct (data r) as [b |] eqn:Hb.
      * left. exists (detail b), r, b. repeat split; assumption.
      * now elim (Hbody r Hr).
    + right. destruct (request error) eqn:Hq; [left | right]; now split.
  - intros [(d & r & b & Hr & _) [Hr' _]]. congruence.
  - intros [(d & r & b & Hr & _) [Hr' _]]. congruence.
  - intros [[_ Hq] [_ Hq']]. congruence.
  - intros d (r & b & -> & -> & ->) Hd. now rewrite or_default_present.
  - intros d (r & b & -> & -> & ->) [-> | ->]; reflexivity.
  - intros [-> ->]. reflexivity.
  - intros [-> ->]. reflexivity.
  - destruct (response error) as [r |] eqn:Hr.
    + destruct (data r) as [b |] eqn:Hb; [| now elim (Hbody r Hr)].
      eexists. split; [reflexivity |].
      destruct (detail b) as [[| c d] |]; discriminate.
    + destruct (request error); eexists; (split; [reflexivity | discriminate]).
Qed.

Lemma verify_failure_three_conditions_witness :
  throws_Error (Samples.failing (Samples.server_error (Some (js "Claim too long"))))
               (APIService.verify Samples.base
                  (VerifyRequest.mk (js "The Earth is flat") (Some (js "en-US")) None))
               (js "Claim too long")
  /\ throws_Error (Samples.failing (Samples.server_error None))
               (APIService.verify Samples.base
                  (VerifyRequest.mk (js "The Earth is flat") (Some (js "en-US")) None))
               (js "Verification failed")
  /\ throws_Error (Samples.failing Samples.connection_lost)
               (APIService.verify Samples.base
                  (VerifyRequest.mk (js "The Earth is flat") (Some (js "en-US")) None))
               (js "Network error - please check your connection")
  /\ throws_Error (Samples.failing Samples.setup_failed)
               (APIService.verify Samples.base
                  (VerifyRequest.mk (js "The Earth is flat") (Some (js "en-US")) None))
               (js "Failed to verify claim").
Proof.
  split; [| split; [| split]].
  - refine (proj1 (proj2 (proj2 (proj2 (proj2
             (@verify_failure_three_conditions _ _
                (Samples.failing (Samples.server_error (Some (js "Claim too long"))))
                _ (fun _ => eq_refl) _))))) _ _ _).
    + intros r H. injection H as <-. discriminate.
    + do 2 eexists. repeat split.
    + discriminate.
  - refine (proj1 (proj2 (proj2 (proj2 (proj2 (proj2
             (@verify_failure_three_conditions _ _
                (Samples.failing (Samples.server_error None))
                _ (fun _ => eq_refl) _)))))) None _ _).
    + intros r H. injection H as <-. discriminate.
    + do 2 eexists. repeat split.
    + now left.
  - refine (proj1 (proj2 (proj2 (proj2 (proj2 (proj2 (proj2
             (@verify_failure_three_conditions _ _
                (Samples.failing Samples.connection_lost)
                _ (fun _ => eq_refl) _))))))) _).
    + intros r H. discriminate H.
    + split; reflexivity.
  - refine (proj1 (proj2 (proj2 (proj2 (proj2 (proj2 (proj2 (proj2
             (@verify_failure_three_conditions _ _
                (Samples.failing Samples.setup_failed)
                _ (fun _ => eq_refl) _)))))))) _).
    + intros r H. discriminate H.
    + split; reflexivity.
Defined.

(** C1, as stated, fails: when the request cannot be sent, [verify] throws
    'Failed to verify claim', which is neither a [detail] of a response (there
    is none) nor the no-connection message. *)
Lemma verify_two_conditions_counterexample :
  ~ two_conditions
      (APIService.verify Samples.base
         (VerifyRequest.mk (js "The Earth is flat") (Some (js "en-US")) None))
      EVerify
      (js "Verification failed")
      (js "Network error - please check your connection").
Proof.
  intros H.
  destruct (H (Samples.failing Samples.setup_failed) Samples.setup_failed
              (fun _ => eq_refl)) as (msg & Hthrow & Hcases).
  unfold throws_Error in Hthrow. vm_compute in Hthrow.
  injection Hthrow as Hmsg. subst msg.
  destruct Hcases as [(d & (r & b & Hr & _) & _) | [_ Hmsg]].
  - discriminate Hr.
  - vm_compute in Hmsg. discriminate Hmsg.
Qed.

(** [verify] does keep the two apart: this is the behaviour C3 expects of the
    lookups. *)
Lemma verify_no_connection_distinct (baseURL : jsstring) (req : VerifyRequest.t) :
  no_connection_distinct (APIService.verify baseURL req) EVerify.
Proof.
  intros net_off net_srv error_off error_srv Hoff [Hr Hq] Hsrv (r & b & Hr' & Hb & Hd).
  rewrite (verify_rejected baseURL req Hoff), (verify_rejected baseURL req Hsrv).
  rewrite Hr, Hq, Hr', Hb, Hd. cbn. discriminate.
Qed.

(** C3, as stated, fails: a lost connection makes [getClaimStatus] and
    [getClaim] throw their generic message, the very one they throw when the
    server reports a failure without [detail]; no separate no-connection
    condition exists on these two paths. *)
Lemma lookup_no_connection_counterexample :
  ~ no_connection_distinct
      (APIService.getClaimStatus Samples.base (js "c-1")) EClaimStatus
  /\ ~ no_connection_distinct
      (APIService.getClaim Samples.base (js "c-1")) EClaim.
Proof.
  split; intros H;
    apply (H (Samples.failing Samples.connection_lost)
             (Samples.failing (Samples.server_error None))
             Samples.connection_lost (Samples.server_error None));
    try (intros rq; reflexivity);
    try (split; reflexivity);
    try (do 2 eexists; repeat split);
    reflexivity.
Qed.

(** C3, as amended. A rejected GET /claims/{id}/status or GET /claims/{id}
    surfaces the server's [detail] verbatim when the server answered with a
    non-empty one; every other failure, a lost connection included, surfaces
    as the one generic message of the call, 'Failed to get claim status' or
    'Failed to get claim'. *)
Theorem lookup_failure_conditions
        (baseURL claimId : jsstring) (net : network) (error : axios_error) :
  rejects net EClaimStatus error ->
  rejects net EClaim error ->
  (forall d, server_reported error (Some d) -> d <> [] ->
             throws_Error net (APIService.getClaimStatus baseURL claimId) d
             /\ throws_Error net (APIService.getClaim baseURL claimId) d)
  /\ (no_connection error ->
      throws_Error net (APIService.getClaimStatus baseURL claimId)
                   (js "Failed to get claim status")
      /\ throws_Error net (APIService.getClaim baseURL claimId)
                      (js "Failed to get claim"))
  /\ ((forall d, server_reported error (Some d) -> d = []) ->
      throws_Error net (APIService.getClaimStatus baseURL claimId)
                   (js "Failed to get claim status")
      /\ throws_Error net (APIService.getClaim baseURL claimId)
                      (js "Failed to get claim")).
Proof.
  intros Hstatus Hclaim.
  pose proof (getClaimStatus_rejected baseURL claimId Hstatus) as Hs.
  pose proof (getClaim_rejected baseURL claimId Hclaim) as Hc.
  split; [| split].
  - intros d Hd Hne.
    rewrite (optional_detail_server Hd), or_default_present in Hs, Hc by exact Hne.
    now split.
  - intros [Hr _].
    rewrite (optional_detail_no_response _ Hr) in Hs, Hc.
    now split.
  - intros Hnone.
    assert (Hd : or_default (optional_detail (ThrownAxios error)) (js "Failed to get claim status")
                 = js "Failed to get claim status"
                 /\ or_default (optional_detail (ThrownAxios error)) (js "Failed to get claim")
                 = js "Failed to get claim").
    { unfold optional_detail. cbn.
      destruct (response error) as [r |] eqn:Hr; [| now split].
      destruct (data r) as [b |] eqn:Hb; [| now split].
      destruct (detail b) as [d |] eqn:Hdet; [| now split].
      assert (d = []) as ->
        by (apply Hnone; exists r, b; repeat split; assumption).
      now split. }
    destruct Hd as [Hd1 Hd2]. rewrite Hd1 in Hs. rewrite Hd2 in Hc.
    now split.
Qed.

Lemma lookup_failure_conditions_witness :
  (throws_Error (Samples.failing (Samples.server_error (Some (js "Claim not found"))))
                (APIService.getClaimStatus Samples.base (js "c-1"))
                (js "Claim not found")
   /\ throws_Error (Samples.failing (Samples.server_error (Some (js "Claim not found"))))
                   (APIService.getClaim Samples.base (js "c-1"))
                   (js "Claim not found"))
  /\ (throws_Error (Samples.failing Samples.connection_lost)
                   (APIService.getClaimStatus Samples.base (js "c-1"))
                   (js "Failed to get claim status")
      /\ throws_Error (Samples.failing Samples.connection_lost)
                      (APIService.getClaim Samples.base (js "c-1"))
                      (js "Failed to get claim")).
Proof.
  split.
  - refine (proj1 (@lookup_failure_conditions Samples.base (js "c-1")
                     (Samples.failing (Samples.server_error (Some (js "Claim not found"))))
                     _ (fun _ => eq_refl) (fun _ => eq_refl)) _ _ _).
    + do 2 eexists. split; [reflexivity | split; reflexivity].
    + discriminate.
  - refine (proj1 (proj2 (@lookup_failure_conditions Samples.base (js "c-1")
                     (Samples.failing Samples.connection_lost)
                     _ (fun _ => eq_refl) (fun _ => eq_refl))) _).
    split; reflexivity.
Defined.

(** C9. Whatever makes GET /health fail, a failure the server reports with a
    [detail] or a failure of the network, [healthCheck] throws the one
    message 'Backend is not responding'; nothing of the error reaches it. *)
Theorem healthCheck_single_condition
        (baseURL : jsstring) (net : network) (error : axios_error) :
  rejects net EHealth error ->
  throws_Error net (APIService.healthCheck baseURL) (js "Backend is not responding").
Proof.
  intros Hrej. unfold throws_Error, result_of, APIService.healthCheck. cbn.
  now rewrite Hrej.
Qed.

Lemma healthCheck_single_condition_witness :
  throws_Error (Samples.failing (Samples.server_error (Some (js "Database is down"))))
               (APIService.healthCheck Samples.base)
               (js "Backend is not responding")
  /\ throws_Error (Samples.failing Samples.connection_lost)
                  (APIService.healthCheck Samples.base)
                  (js "Backend is not responding").
Proof.
  split.
  - exact (@healthCheck_single_condition Samples.base
             (Samples.failing (Samples.server_error (Some (js "Database is down"))))
             _ (fun _ => eq_refl)).
  - exact (@healthCheck_single_condition Samples.base
             (Samples.failing Samples.connection_lost) _ (fun _ => eq_refl)).
Defined.

(** C4. Every run of [verify] sends exactly one request, a POST to
    [baseURL/verify], and that request carries a timeout of 30000 ms, the
    value of [API_TIMEOUT]. *)
Theorem verify_timeout (baseURL : jsstring) (req : VerifyRequest.t) (net : network) :
  exists rq,
    trace net (APIService.verify baseURL req) = [EvAxios rq]
    /\ method rq = POST
    /\ url rq = baseURL ++ js "/verify"
    /\ body rq = Some req
    /\ timeout rq = Some 30000%Z
    /\ timeout rq = Some Constants.API_TIMEOUT.
Proof.
  eexists. split.
  - unfold trace, APIService.verify. cbn.
    match goal with
    | |- context [net EVerify ?r] => destruct (net EVerify r)
    end; cbn.
    + reflexivity.
    + destruct (response error) as [r |]; cbn.
      * destruct (data r); reflexivity.
      * destruct (request error); reflexivity.
  - repeat split.
Qed.

(* ------------------------------------------------------------------ *)
(** ** [InputScreen]: the submit flow *)

Section SubmitFlow.

Variable baseURL : jsstring.
Variable net : network.

Lemma handleVerify_blank (claim : jsstring) :
  trim claim = [] ->
  trace net (InputScreen.handleVerify baseURL claim)
  = [EvAlert (js "Error") (js "Please enter a claim")].
Proof.
  intros E. unfold trace, InputScreen.handleVerify. now rewrite E.
Qed.

(** With text to send, [handleVerify] raises the loading flag, posts, shows
    the result or an alert, and lowers the flag. *)
Lemma handleVerify_trace (claim : jsstring) :
  trim claim <> [] ->
  exists shown,
    trace net (InputScreen.handleVerify baseURL claim)
    = [EvSetLoading true; EvAxios (post_verify baseURL (submission claim));
       shown; EvSetLoading false]
    /\ match net EVerify (post_verify baseURL (submission claim)) with
       | Fulfilled d => shown = EvNavigate (js "Result") d
       | Rejected _ => exists msg, shown = EvAlert (js "Error") msg
       end.
Proof.
  intros Hne. apply truthy_nonempty in Hne.
  unfold trace, InputScreen.handleVerify. rewrite Hne. cbn.
  match goal with
  | |- context [net EVerify ?r] =>
      change r with (post_verify baseURL (submission claim))
  end.
  destruct (net EVerify (post_verify baseURL (submission claim))) as [d | error]; cbn.
  - eexists. split; reflexivity.
  - destruct (response error) as [r |]; cbn.
    + destruct (data r); cbn; eexists; split; try reflexivity; eexists; reflexivity.
    + destruct (request error); cbn; eexists; split; try reflexivity;
        eexists; reflexivity.
Qed.

Lemma handleVerify_requests (claim : jsstring) :
  requests (trace net (InputScreen.handleVerify baseURL claim))
  = if truthy (trim claim) then [post_verify baseURL (submission claim)] else [].
Proof.
  destruct (truthy (trim claim)) eqn:E.
  - apply truthy_nonempty in E.
    destruct (@handleVerify_trace claim E) as (shown & -> & Hshown).
    destruct (net EVerify _); [subst shown | destruct Hshown as [msg ->]]; reflexivity.
  - assert (trim claim = []) as E' by (destruct (trim claim); [reflexivity | discriminate]).
    now rewrite (@handleVerify_blank claim E').
Qed.

End SubmitFlow.

(** C2. When POST /verify succeeds, [handleVerify] takes the response body as
    the [VerificationResult] and navigates to the result screen with it,
    untouched: the whole run is: loading on, the POST, navigation to 'Result',
    loading off. No field of the response is used as a job id, and the run
    sends no request besides the POST, so nothing polls /claims/{id}/status. *)
Theorem handleVerify_success
        (baseURL claim : jsstring) (net : network) (result : VerificationResult.t) :
  trim claim <> [] ->
  answers net EVerify result ->
  trace net (InputScreen.handleVerify baseURL claim)
  = [EvSetLoading true;
     EvAxios (post_verify baseURL (submission claim));
     EvNavigate (js "Result") result;
     EvSetLoading false]
  /\ result_of net (InputScreen.handleVerify baseURL claim) = Returned tt
  /\ requests (trace net (InputScreen.handleVerify baseURL claim))
     = [post_verify baseURL (submission claim)]
  /\ (forall rq, In rq (requests (trace net (InputScreen.handleVerify baseURL claim))) ->
                 ~ is_poll rq).
Proof.
  intros Hne Hans.
  assert (Hreq : requests (trace net (InputScreen.handleVerify baseURL claim))
                 = [post_verify baseURL (submission claim)]).
  { rewrite handleVerify_requests.
    apply truthy_nonempty in Hne. now rewrite Hne. }
  split; [| split; [| split]].
  - destruct (@handleVerify_trace baseURL net claim Hne) as (shown & -> & Hshown).
    rewrite Hans in Hshown. now subst shown.
  - apply truthy_nonempty in Hne.
    unfold result_of, InputScreen.handleVerify. rewrite Hne. cbn.
    now rewrite Hans.
  - exact Hreq.
  - intros rq Hin. rewrite Hreq in Hin.
    destruct Hin as [<- | []]. unfold is_poll. cbn. discriminate.
Qed.

Lemma handleVerify_success_witness :
  trace (Samples.serving Samples.flat_earth)
        (InputScreen.handleVerify Samples.base (js "  The Earth is flat "))
  = [EvSetLoading true;
     EvAxios (post_verify Samples.base (submission (js "  The Earth is flat ")));
     EvNavigate (js "Result") Samples.flat_earth;
     EvSetLoading false].
Proof.
  refine (proj1 (@handleVerify_success Samples.base (js "  The Earth is flat ")
                   (Samples.serving Samples.flat_earth) Samples.flat_earth _ _)).
  - vm_compute. discriminate.
  - intros rq. reflexivity.
Defined.

(** What [handleVerify] sends, when it sends. *)
Lemma handleVerify_sends
      (baseURL claim : jsstring) (net : network) (rq : axios_request) :
  In rq (requests (trace net (InputScreen.handleVerify baseURL claim))) ->
  trimmed_submission baseURL claim rq.
Proof.
  rewrite handleVerify_requests.
  destruct (truthy (trim claim)) eqn:E; [| intros []].
  intros [<- | []].
  apply truthy_nonempty in E.
  unfold trimmed_submission.
  split; [exact E |].
  split.
  { destruct (whitespace_only claim) eqn:W; [| reflexivity].
    now apply trim_whitespace_only in W. }
  split; [now apply trim_not_whitespace_only |].
  split; reflexivity.
Qed.

Section SessionRequests.

Variable baseURL : jsstring.
Variable textInput_limit : nat -> jsstring -> jsstring -> jsstring.

Lemma requests_app (tr1 tr2 : list event) :
  requests (tr1 ++ tr2) = requests tr1 ++ requests tr2.
Proof.
  unfold requests. apply flat_map_app.
Qed.

(** Only the verify button sends, and only through [handleVerify]. *)
Lemma step_requests (s : InputScreen.state) (a : InputScreen.action) (rq : axios_request) :
  In rq (requests (snd (InputScreen.step baseURL textInput_limit s a))) ->
  trimmed_submission baseURL (InputScreen.claim s) rq.
Proof.
  destruct a as [attempted | net |]; simpl.
  - destruct (InputScreen.textInput_editable s); intros [].
  - destruct (InputScreen.verifyButton_disabled s); simpl; [intros [] |].
    apply handleVerify_sends.
  - destruct (InputScreen.clearButton_rendered s); intros [].
Qed.

Lemma session_requests (actions : list InputScreen.action) :
  forall (s : InputScreen.state) (rq : axios_request),
    In rq (requests (snd (InputScreen.session baseURL textInput_limit s actions))) ->
    exists claim, trimmed_submission baseURL claim rq.
Proof.
  induction actions as [| a rest IH]; intros s rq;
    cbn [InputScreen.session]; [intros [] |].
  pose proof (@step_requests s a rq) as Hstep.
  destruct (InputScreen.step baseURL textInput_limit s a) as [s1 tr1].
  specialize (IH s1 rq).
  destruct (InputScreen.session baseURL textInput_limit s1 rest) as [s2 tr2].
  cbn [fst snd] in *. rewrite requests_app, in_app_iff.
  intros [Hin | Hin]; [| now apply IH].
  exists (InputScreen.claim s). now apply Hstep.
Qed.

End SessionRequests.

(** C8. The input screen never submits an empty or whitespace-only claim.
    [handleVerify] calls [verify] only when the trimmed claim is not empty,
    and the request it then sends holds the trimmed claim, language 'en-US'
    and no media_url; and whatever the user does on the screen, every request
    that leaves it is of this kind. *)
Theorem input_screen_request
        (baseURL : jsstring)
        (textInput_limit : nat -> jsstring -> jsstring -> jsstring) :
  (forall (claim : jsstring) (net : network) (rq : axios_request),
      In rq (requests (trace net (InputScreen.handleVerify baseURL claim))) ->
      trim claim <> []
      /\ whitespace_only claim = false
      /\ whitespace_only (trim claim) = false
      /\ method rq = POST
      /\ body rq = Some {| VerifyRequest.claim := trim claim;
                           VerifyRequest.language := Some (js "en-US");
                           VerifyRequest.media_url := None |})
  /\ (forall (actions : list InputScreen.action) (rq : axios_request),
         In rq (requests (snd (InputScreen.session baseURL textInput_limit
                                 InputScreen.initial actions))) ->
         exists claim,
           trim claim <> []
           /\ whitespace_only (trim claim) = false
           /\ method rq = POST
           /\ body rq = Some {| VerifyRequest.claim := trim claim;
                                VerifyRequest.language := Some (js "en-US");
                                VerifyRequest.media_url := None |}).
Proof.
  split.
  - intros claim net rq Hin.
    destruct (handleVerify_sends _ _ _ _ Hin) as (Hne & Hw & Hwt & -> & Hbody).
    repeat split; assumption.
  - intros actions rq Hin.
    destruct (session_requests _ _ _ _ _ Hin) as (claim & Hne & _ & Hwt & -> & Hbody).
    exists claim. repeat split; assumption.
Qed.

Lemma input_screen_request_witness :
  trim (js "  The Earth is flat ") = js "The Earth is flat"
  /\ requests (trace (Samples.serving Samples.flat_earth)
                     (InputScreen.handleVerify Samples.base (js "   "))) = []
  /\ body (post_verify Samples.base (submission (js "  The Earth is flat ")))
     = Some {| VerifyRequest.claim := js "The Earth is flat";
               VerifyRequest.language := Some (js "en-US");
               VerifyRequest.media_url := None |}.
Proof.
  split; [reflexivity |].
  split; [reflexivity |].
  refine (proj2 (proj2 (proj2 (proj2
    (proj1 (input_screen_request Samples.base Samples.truncating)
       (js "  The Earth is flat ")
       (Samples.serving Samples.flat_earth)
       (post_verify Samples.base (submission (js "  The Earth is flat "))) _))))).
  vm_compute. left. reflexivity.
Defined.

(* ------------------------------------------------------------------ *)
(** ** [InputScreen]: the length of what is sent *)

Section ClaimLength.

Variable baseURL : jsstring.
Variable textInput_limit : nat -> jsstring -> jsstring -> jsstring.

(** The contract of [maxLength]: the text handed to [onChangeText] is never
    longer. *)
Hypothesis maxLength_respected :
  forall m current attempted,
    (List.length (textInput_limit m current attempted) <= m)%nat.

Let step := InputScreen.step baseURL textInput_limit.
Let session := InputScreen.session baseURL textInput_limit.

Lemma apply_events_claim (tr : list event) (s : InputScreen.state) :
  InputScreen.claim (fold_left InputScreen.apply_event tr s) = InputScreen.claim s.
Proof.
  revert s. induction tr as [| ev tr IH]; intros s; simpl; [reflexivity |].
  rewrite IH. now destruct ev.
Qed.

Lemma handleVerify_submitted (net : network) (claim : jsstring) :
  InputScreen.submitted_claims (trace net (InputScreen.handleVerify baseURL claim))
  = if truthy (trim claim) then [trim claim] else [].
Proof.
  destruct (truthy (trim claim)) eqn:E.
  - apply truthy_nonempty in E.
    destruct (@handleVerify_trace baseURL net claim E) as (shown & -> & Hshown).
    destruct (net EVerify _); [subst shown | destruct Hshown as [msg ->]]; reflexivity.
  - assert (trim claim = []) as E' by (destruct (trim claim); [reflexivity | discriminate]).
    now rewrite (@handleVerify_blank baseURL net claim E').
Qed.

Lemma step_within_limit (s : InputScreen.state) (a : InputScreen.action) :
  within_limit s -> within_limit (fst (step s a)).
Proof.
  unfold within_limit, step. intros Hs.
  destruct a as [attempted | net |]; simpl.
  - destruct (InputScreen.textInput_editable s); simpl; [| exact Hs].
    apply maxLength_respected.
  - destruct (InputScreen.verifyButton_disabled s); simpl; [exact Hs |].
    now rewrite apply_events_claim.
  - destruct (InputScreen.clearButton_rendered s); simpl; [| exact Hs].
    unfold InputScreen.textInput_maxLength. lia.
Qed.

Lemma step_submitted (s : InputScreen.state) (a : InputScreen.action) (c : jsstring) :
  within_limit s ->
  In c (InputScreen.submitted_claims (snd (step s a))) ->
  c = trim (InputScreen.claim s) /\ c <> []
  /\ (List.length c <= InputScreen.textInput_maxLength)%nat.
Proof.
  unfold within_limit, step. intros Hs.
  destruct a as [attempted | net |]; simpl.
  - destruct (InputScreen.textInput_editable s); intros [].
  - destruct (InputScreen.verifyButton_disabled s); simpl; [intros [] |].
    rewrite handleVerify_submitted.
    destruct (truthy (trim (InputScreen.claim s))) eqn:E; [| intros []].
    intros [<- | []]. apply truthy_nonempty in E.
    repeat split; [exact E |].
    etransitivity; [apply trim_length | exact Hs].
  - destruct (InputScreen.clearButton_rendered s); intros [].
Qed.

Lemma submitted_claims_app (tr1 tr2 : list event) :
  InputScreen.submitted_claims (tr1 ++ tr2)
  = InputScreen.submitted_claims tr1 ++ InputScreen.submitted_claims tr2.
Proof.
  unfold InputScreen.submitted_claims. apply flat_map_app.
Qed.

Lemma session_submitted (actions : list InputScreen.action) :
  forall (s : InputScreen.state) (c : jsstring),
    within_limit s ->
    In c (InputScreen.submitted_claims (snd (session s actions))) ->
    c <> [] /\ (List.length c <= InputScreen.textInput_maxLength)%nat.
Proof.
  unfold session.
  induction actions as [| a rest IH]; intros s c Hs;
    cbn [InputScreen.session]; [intros [] |].
  pose proof (@step_within_limit s a Hs) as Hs1.
  pose proof (@step_submitted s a c Hs) as Hsub.
  unfold step in Hs1, Hsub.
  destruct (InputScreen.step baseURL textInput_limit s a) as [s1 tr1].
  specialize (IH s1 c Hs1).
  destruct (InputScreen.session baseURL textInput_limit s1 rest) as [s2 tr2].
  cbn [fst snd] in *. rewrite submitted_claims_app, in_app_iff.
  intros [Hin | Hin]; [| now apply IH].
  destruct (Hsub Hin) as (_ & Hne & Hlen). now split.
Qed.

End ClaimLength.

(** C5. Whatever the user does on the input screen (typing and pasting into
    the text field, clearing it, pressing the verify button, in any order and
    against any backend), every claim the screen sends is at most 2000 code
    units long, the value of [MAX_CLAIM_LENGTH]. The text field is React
    Native's, whose [maxLength] is taken at its word. *)
Theorem submitted_claim_length
        (baseURL : jsstring)
        (textInput_limit : nat -> jsstring -> jsstring -> jsstring)
        (actions : list InputScreen.action) (c : jsstring) :
  (forall m current attempted,
      (List.length (textInput_limit m current attempted) <= m)%nat) ->
  In c (InputScreen.submitted_claims
          (snd (InputScreen.session baseURL textInput_limit InputScreen.initial actions))) ->
  (List.length c <= 2000)%nat
  /\ (List.length c <= Constants.MAX_CLAIM_LENGTH)%nat.
Proof.
  intros Hlimit Hin.
  assert (Hinit : within_limit InputScreen.initial).
  { unfold within_limit, InputScreen.textInput_maxLength. simpl. lia. }
  destruct (@session_submitted baseURL textInput_limit Hlimit actions
              InputScreen.initial c Hinit Hin) as [_ Hlen].
  split; exact Hlen.
Qed.

Lemma submitted_claim_length_witness :
  InputScreen.submitted_claims
    (snd (InputScreen.session Samples.base Samples.truncating InputScreen.initial
            [InputScreen.ChangeText (js "  The Earth is flat ");
             InputScreen.PressVerify (Samples.serving Samples.flat_earth)]))
  = [js "The Earth is flat"]
  /\ (List.length (js "The Earth is flat") <= 2000)%nat.
Proof.
  split; [reflexivity |].
  refine (proj1 (@submitted_claim_length Samples.base Samples.truncating
                   [InputScreen.ChangeText (js "  The Earth is flat ");
                    InputScreen.PressVerify (Samples.serving Samples.flat_earth)]
                   (js "The Earth is flat") _ _)).
  - intros m current attempted. apply firstn_le_length.
  - vm_compute. left. reflexivity.
Defined.

(* ------------------------------------------------------------------ *)
(** ** [ResultScreen]: the confidence label *)

Section FloatOrder.

Lemma SFcompare_swap (x y : spec_float) :
  SFcompare y x = option_map CompOpp (SFcompare x y).
Proof.
  destruct x as [sx | sx | | sx mx ex], y as [sy | sy | | sy my ey]; cbn;
    try reflexivity;
    try (destruct sx; reflexivity);
    try (destruct sy; reflexivity);
    try (destruct sx, sy; reflexivity).
  destruct sx, sy; cbn; try reflexivity; f_equal;
    rewrite (Z.compare_antisym ey ex);
    destruct (ey ?= ex)%Z; cbn; try reflexivity;
    change (PosDef.Pos.compare_cont Eq my mx) with (Pos.compare my mx);
    change (PosDef.Pos.compare_cont Eq mx my) with (Pos.compare mx my);
    rewrite (Pos.compare_antisym my mx);
    now rewrite ?CompOpp_involutive.
Qed.

Lemma SFcompare_defined (x y : spec_float) :
  x <> S754_nan -> y <> S754_nan -> SFcompare x y <> None.
Proof.
  destruct x, y; cbn; congruence.
Qed.

Lemma SFleb_right_number (x y : spec_float) :
  SFleb x y = true -> y <> S754_nan.
Proof.
  unfold SFleb. intros H ->. destruct x; discriminate.
Qed.

(** [c < h] excludes [c >= h]. *)
Lemma lt_not_ge (c h : number) : lt c h = true -> ge c h = false.
Proof.
  unfold lt, ge. rewrite leb_spec, ltb_spec. unfold SFleb, SFltb.
  rewrite (SFcompare_swap (Prim2SF h) (Prim2SF c)).
  destruct (SFcompare (Prim2SF h) (Prim2SF c)) as [[] |]; cbn; congruence.
Qed.

(** For a threshold [h] that is a number, and once [c] is known to be one
    (it passed [c >= m]): [c >= h] fails exactly when [c < h]. NaN, which
    fails both, is what the side condition rules out. *)
Lemma not_ge_lt (c h m : number) :
  Prim2SF h <> S754_nan ->
  ge c m = true ->
  ge c h = false -> lt c h = true.
Proof.
  unfold lt, ge. rewrite !leb_spec, ltb_spec. intros Hh Hm.
  apply SFleb_right_number in Hm.
  pose proof (@SFcompare_defined _ _ Hh Hm) as Hdef.
  unfold SFleb, SFltb.
  rewrite (SFcompare_swap (Prim2SF h) (Prim2SF c)).
  destruct (SFcompare (Prim2SF h) (Prim2SF c)) as [[] |]; cbn; congruence.
Qed.

Lemma HIGH_is_number : Prim2SF Constants.CONFIDENCE_THRESHOLDS.HIGH <> S754_nan.
Proof.
  vm_compute. discriminate.
Qed.

End FloatOrder.

(** C10. The label shown with a result is 'High Confidence' exactly when
    confidence >= 0.8, 'Medium Confidence' exactly when 0.5 <= confidence
    < 0.8, and 'Low Confidence' in every other case. The two cut-offs are the
    values of [CONFIDENCE_THRESHOLDS.HIGH] and [CONFIDENCE_THRESHOLDS.MEDIUM];
    [CONFIDENCE_THRESHOLDS.LOW] plays no part: the label is settled by the
    comparisons with HIGH and MEDIUM alone, and confidences on either side of
    LOW are labelled alike. *)
Theorem getConfidenceLabel_thresholds (result : VerificationResult.t) :
  let c := VerificationResult.confidence result in
  let label := ResultScreen.getConfidenceLabel result in
  (label = js "High Confidence"
   <-> ge c Constants.CONFIDENCE_THRESHOLDS.HIGH = true)
  /\ (label = js "Medium Confidence"
      <-> ge c Constants.CONFIDENCE_THRESHOLDS.MEDIUM = true
          /\ lt c Constants.CONFIDENCE_THRESHOLDS.HIGH = true)
  /\ (label = js "Low Confidence"
      <-> ge c Constants.CONFIDENCE_THRESHOLDS.HIGH = false
          /\ ~ (ge c Constants.CONFIDENCE_THRESHOLDS.MEDIUM = true
                /\ lt c Constants.CONFIDENCE_THRESHOLDS.HIGH = true))
  /\ (forall other : VerificationResult.t,
         ge (VerificationResult.confidence other) Constants.CONFIDENCE_THRESHOLDS.HIGH
         = ge c Constants.CONFIDENCE_THRESHOLDS.HIGH ->
         ge (VerificationResult.confidence other) Constants.CONFIDENCE_THRESHOLDS.MEDIUM
         = ge c Constants.CONFIDENCE_THRESHOLDS.MEDIUM ->
         ResultScreen.getConfidenceLabel other = label)
  /\ (exists above below : VerificationResult.t,
         ge (VerificationResult.confidence above) Constants.CONFIDENCE_THRESHOLDS.LOW = true
         /\ ge (VerificationResult.confidence below) Constants.CONFIDENCE_THRESHOLDS.LOW = false
         /\ ResultScreen.getConfidenceLabel above = ResultScreen.getConfidenceLabel below).
Proof.
  intros c label. subst label. unfold ResultScreen.getConfidenceLabel.
  change 0.8%float with Constants.CONFIDENCE_THRESHOLDS.HIGH.
  change 0.5%float with Constants.CONFIDENCE_THRESHOLDS.MEDIUM.
  fold c.
  split; [| split; [| split; [| split]]].
  - destruct (ge c Constants.CONFIDENCE_THRESHOLDS.HIGH);
      [| destruct (ge c Constants.CONFIDENCE_THRESHOLDS.MEDIUM)];
      split; intros H; try reflexivity; try discriminate H.
  - destruct (ge c Constants.CONFIDENCE_THRESHOLDS.HIGH) eqn:Hh;
      [| destruct (ge c Constants.CONFIDENCE_THRESHOLDS.MEDIUM) eqn:Hm];
      split; intros H; try reflexivity; try discriminate H.
    + destruct H as [_ Hlt]. apply lt_not_ge in Hlt. congruence.
    + split; [reflexivity |].
      exact (not_ge_lt HIGH_is_number Hm Hh).
    + destruct H as [H _]. discriminate H.
  - destruct (ge c Constants.CONFIDENCE_THRESHOLDS.HIGH) eqn:Hh;
      [| destruct (ge c Constants.CONFIDENCE_THRESHOLDS.MEDIUM) eqn:Hm];
      split; intros H; try reflexivity; try discriminate H.
    + destruct H as [H _]. discriminate H.
    + destruct H as [_ H]. exfalso. apply H. split; [reflexivity |].
      exact (not_ge_lt HIGH_is_number Hm Hh).
    + split; [reflexivity |]. intros [H' _]. discriminate H'.
  - intros other -> ->. reflexivity.
  - exists (Samples.with_confidence 0.4%float), (Samples.with_confidence 0.2%float).
    repeat split.
Qed.

Lemma getConfidenceLabel_thresholds_witness :
  ResultScreen.getConfidenceLabel (Samples.with_confidence 0.65%float)
  = js "Medium Confidence".
Proof.
  apply (proj1 (proj2 (getConfidenceLabel_thresholds (Samples.with_confidence 0.65%float)))).
  split; reflexivity.
Defined.

(* ------------------------------------------------------------------ *)
(** ** The verdict synthesizer *)

Section Synthesis.

Import VerdictSynthesizer.

Variable p : Params.

Lemma cap_not_TRUE (v : Verdict) : cap v <> TRUE.
Proof.
  destruct v; discriminate.
Qed.

Lemma highConfidenceManipulation_true (m : MediaAnalysis) :
  isManipulated m = true ->
  (mediaHighConfidence p <= confidence m)%Q ->
  highConfidenceManipulation p (Some m) = true.
Proof.
  intros Hm Hc. unfold highConfidenceManipulation, Qleb.
  rewrite Hm. cbn. now apply Qle_bool_iff.
Qed.

Lemma textVerdict_strong_support (ev : list Evidence) :
  (netScore p ev == 9 # 10)%Q -> textVerdict p ev = TRUE.
Proof.
  intros H. unfold textVerdict, Qleb.
  assert (Qle_bool (6 # 10) (netScore p ev) = true) as ->; [| reflexivity].
  apply Qle_bool_iff. rewrite H. discriminate.
Qed.

End Synthesis.

(** C6. The verdict synthesizer is a function of its three inputs and of
    nothing else: two runs on the same evidence sequence, the same optional
    media analysis and the same claim text give the same VerificationResult,
    hence the same verdict and the same confidence. *)
Theorem synthesize_deterministic
        (p : VerdictSynthesizer.Params)
        (ev1 ev2 : list VerdictSynthesizer.Evidence)
        (media1 media2 : option VerdictSynthesizer.MediaAnalysis)
        (claim1 claim2 : jsstring) :
  ev1 = ev2 -> media1 = media2 -> claim1 = claim2 ->
  VerdictSynthesizer.synthesize p ev1 media1 claim1
  = VerdictSynthesizer.synthesize p ev2 media2 claim2
  /\ VerdictSynthesizer.verdict (VerdictSynthesizer.synthesize p ev1 media1 claim1)
     = VerdictSynthesizer.verdict (VerdictSynthesizer.synthesize p ev2 media2 claim2)
  /\ VerdictSynthesizer.resultConfidence (VerdictSynthesizer.synthesize p ev1 media1 claim1)
     = VerdictSynthesizer.resultConfidence (VerdictSynthesizer.synthesize p ev2 media2 claim2).
Proof.
  intros -> -> ->. repeat split.
Qed.

Lemma synthesize_deterministic_witness :
  VerdictSynthesizer.synthesize Samples.scoring Samples.strong_support
    (Some Samples.doctored) (js "The photo shows the event")
  = VerdictSynthesizer.synthesize Samples.scoring Samples.strong_support
      (Some Samples.doctored) (js "The photo shows the event").
Proof.
  exact (proj1 (@synthesize_deterministic Samples.scoring
                  Samples.strong_support Samples.strong_support
                  (Some Samples.doctored) (Some Samples.doctored)
                  (js "The photo shows the event") (js "The photo shows the event")
                  eq_refl eq_refl eq_refl)).
Defined.

(** C7. When the media analysis is present, says the media is manipulated and
    does so with high confidence (at or above the threshold of step 6), the
    verdict is never TRUE, whatever the text evidence: it is the verdict of
    the text evidence brought down to MISLEADING when that one is TRUE. This
    covers text evidence with a net score of 0.9, which alone gives TRUE. *)
Theorem manipulated_media_cap
        (p : VerdictSynthesizer.Params)
        (ev : list VerdictSynthesizer.Evidence)
        (m : VerdictSynthesizer.MediaAnalysis)
        (claimText : jsstring) :
  VerdictSynthesizer.isManipulated m = true ->
  (VerdictSynthesizer.mediaHighConfidence p <= VerdictSynthesizer.confidence m)%Q ->
  VerdictSynthesizer.verdict (VerdictSynthesizer.synthesize p ev (Some m) claimText) <> TRUE
  /\ VerdictSynthesizer.verdict (VerdictSynthesizer.synthesize p ev (Some m) claimText)
     = VerdictSynthesizer.cap (VerdictSynthesizer.textVerdict p ev)
  /\ ((VerdictSynthesizer.netScore p ev == 9 # 10)%Q ->
      VerdictSynthesizer.verdict (VerdictSynthesizer.synthesize p ev None claimText) = TRUE
      /\ VerdictSynthesizer.verdict (VerdictSynthesizer.synthesize p ev (Some m) claimText)
         = MISLEADING).
Proof.
  intros Hm Hc.
  assert (Hv : VerdictSynthesizer.verdict
                 (VerdictSynthesizer.synthesize p ev (Some m) claimText)
               = VerdictSynthesizer.cap (VerdictSynthesizer.textVerdict p ev)).
  { unfold VerdictSynthesizer.synthesize. cbn [VerdictSynthesizer.verdict].
    now rewrite (@highConfidenceManipulation_true p m Hm Hc). }
  split; [| split].
  - rewrite Hv. apply cap_not_TRUE.
  - exact Hv.
  - intros Hnet. rewrite Hv.
    unfold VerdictSynthesizer.synthesize. cbn.
    now rewrite (@textVerdict_strong_support p ev Hnet).
Qed.

Lemma manipulated_media_cap_witness :
  (VerdictSynthesizer.netScore Samples.scoring Samples.strong_support == 9 # 10)%Q
  /\ VerdictSynthesizer.confidence Samples.doctored = (95 # 100)%Q
  /\ VerdictSynthesizer.verdict
       (VerdictSynthesizer.synthesize Samples.scoring Samples.strong_support
          (Some Samples.doctored) (js "The photo shows the event")) <> TRUE.
Proof.
  split; [reflexivity |].
  split; [reflexivity |].
  refine (proj1 (@manipulated_media_cap Samples.scoring Samples.strong_support
                   Samples.doctored (js "The photo shows the event") _ _)).
  - reflexivity.
  - vm_compute. discriminate.
Defined.

(* ------------------------------------------------------------------ *)
(** ** Running composed computations *)

Section RunLaws.

Variable net : network.

Lemma run_bind {A B} (p : prog A) (f : A -> prog B) :
  run net (bind p f)
  = match run net p with
    | (tr, Returned a) => let (tr', o) := run net (f a) in (tr ++ tr', o)
    | (tr, Raised error) => (tr, Raised error)
    end.
Proof.
  induction p as [a | error | e rq k IH | t m k IH | b k IH | s r k IH]; cbn.
  - now destruct (run net (f a)).
  - reflexivity.
  - rewrite IH. destruct (run net (k (net e rq))) as [tr [a | error]]; cbn;
      [destruct (run net (f a)) |]; reflexivity.
  - rewrite IH. destruct (run net k) as [tr [a | error]]; cbn;
      [destruct (run net (f a)) |]; reflexivity.
  - rewrite IH. destruct (run net k) as [tr [a | error]]; cbn;
      [destruct (run net (f a)) |]; reflexivity.
  - rewrite IH. destruct (run net k) as [tr [a | error]]; cbn;
      [destruct (run net (f a)) |]; reflexivity.
Qed.

Lemma run_try_catch {A} (p : prog A) (h : thrown -> prog A) :
  run net (try_catch p h)
  = match run net p with
    | (tr, Returned a) => (tr, Returned a)
    | (tr, Raised error) => let (tr', o) := run net (h error) in (tr ++ tr', o)
    end.
Proof.
  induction p as [a | error | e rq k IH | t m k IH | b k IH | s r k IH]; cbn.
  - reflexivity.
  - now destruct (run net (h error)).
  - rewrite IH. destruct (run net (k (net e rq))) as [tr [a | error]]; cbn;
      [| destruct (run net (h error))]; reflexivity.
  - rewrite IH. destruct (run net k) as [tr [a | error]]; cbn;
      [| destruct (run net (h error))]; reflexivity.
  - rewrite IH. destruct (run net k) as [tr [a | error]]; cbn;
      [| destruct (run net (h error))]; reflexivity.
  - rewrite IH. destruct (run net k) as [tr [a | error]]; cbn;
      [| destruct (run net (h error))]; reflexivity.
Qed.

Lemma run_try_finally {A} (p : prog A) (f : prog unit) :
  run net (try_finally p f)
  = match run net p, run net f with
    | (tr, o), (tr', Returned _) => (tr ++ tr', o)
    | (tr, _), (tr', Raised error) => (tr ++ tr', Raised error)
    end.
Proof.
  induction p as [a | error | e rq k IH | t m k IH | b k IH | s r k IH]; cbn.
  - rewrite run_bind.
    destruct (run net f) as [tr' [[] | error]]; cbn; now rewrite ?app_nil_r.
  - rewrite run_bind.
    destruct (run net f) as [tr' [[] | error']]; cbn; now rewrite ?app_nil_r.
  - rewrite IH. destruct (run net (k (net e rq))) as [tr o].
    now destruct (run net f) as [tr' [[] | error']].
  - rewrite IH. destruct (run net k) as [tr o].
    now destruct (run net f) as [tr' [[] | error']].
  - rewrite IH. destruct (run net k) as [tr o].
    now destruct (run net f) as [tr' [[] | error']].
  - rewrite IH. destruct (run net k) as [tr o].
    now destruct (run net f) as [tr' [[] | error']].
Qed.

End RunLaws.

(* ------------------------------------------------------------------ *)
(** ** [APIService]: what a caller gets *)

Lemma or_default_nonempty (x : option jsstring) (d : jsstring) :
  d <> [] -> or_default x d <> [].
Proof.
  intros Hd. destruct x as [[| c s] |]; cbn; congruence.
Qed.

(** One awaited axios call inside [try], with a [catch] that rethrows. *)
Lemma run_guarded_call (net : network) (e : endpoint) (rq : axios_request)
      (h : thrown -> prog (payload e)) (rethrown : thrown -> thrown) :
  (forall error, h error = Throw (rethrown error)) ->
  run net (try_catch (await_axios e rq) h)
  = ([EvAxios rq],
     match net e rq with
     | Fulfilled d => Returned d
     | Rejected error => Raised (rethrown (ThrownAxios error))
     end).
Proof.
  intros Hh. unfold await_axios. cbn.
  destruct (net e rq) as [d | error]; cbn; [reflexivity |].
  now rewrite Hh.
Qed.

Lemma verify_run (baseURL : jsstring) (req : VerifyRequest.t) (net : network) :
  run net (APIService.verify baseURL req)
  = ([EvAxios (post_verify baseURL req)],
     match net EVerify (post_verify baseURL req) with
     | Fulfilled d => Returned d
     | Rejected error => Raised (verify_rethrown (ThrownAxios error))
     end).
Proof.
  unfold APIService.verify.
  apply (@run_guarded_call net EVerify (post_verify baseURL req) _ verify_rethrown).
  intros error. unfold verify_rethrown.
  destruct (thrown_response error) as [r |].
  - destruct (data r); reflexivity.
  - destruct (thrown_request error); reflexivity.
Qed.

Lemma getClaimStatus_run (baseURL claimId : jsstring) (net : network) :
  run net (APIService.getClaimStatus baseURL claimId)
  = ([EvAxios (get_request (baseURL ++ js "/claims/" ++ claimId ++ js "/status"))],
     match net EClaimStatus
               (get_request (baseURL ++ js "/claims/" ++ claimId ++ js "/status")) with
     | Fulfilled d => Returned d
     | Rejected error =>
         Raised (ThrownError (new_Error
           (or_default (optional_detail (ThrownAxios error))
                       (js "Failed to get claim status"))))
     end).
Proof.
  unfold APIService.getClaimStatus.
  now apply (@run_guarded_call net EClaimStatus
               (get_request (baseURL ++ js "/claims/" ++ claimId ++ js "/status")) _
               (fun error => ThrownError (new_Error
                  (or_default (optional_detail error) (js "Failed to get claim status"))))).
Qed.

Lemma getClaim_run (baseURL claimId : jsstring) (net : network) :
  run net (APIService.getClaim baseURL claimId)
  = ([EvAxios (get_request (baseURL ++ js "/claims/" ++ claimId))],
     match net EClaim (get_request (baseURL ++ js "/claims/" ++ claimId)) with
     | Fulfilled d => Returned d
     | Rejected error =>
         Raised (ThrownError (new_Error
           (or_default (optional_detail (ThrownAxios error))
                       (js "Failed to get claim"))))
     end).
Proof.
  unfold APIService.getClaim.
  now apply (@run_guarded_call net EClaim
               (get_request (baseURL ++ js "/claims/" ++ claimId)) _
               (fun error => ThrownError (new_Error
                  (or_default (optional_detail error) (js "Failed to get claim"))))).
Qed.

Lemma healthCheck_run (baseURL : jsstring) (net : network) :
  run net (APIService.healthCheck baseURL)
  = ([EvAxios (get_request (baseURL ++ js "/health"))],
     match net EHealth (get_request (baseURL ++ js "/health")) with
     | Fulfilled d => Returned d
     | Rejected error =>
         Raised (ThrownError (new_Error (js "Backend is not responding")))
     end).
Proof.
  unfold APIService.healthCheck.
  now apply (@run_guarded_call net EHealth
               (get_request (baseURL ++ js "/health")) _
               (fun _ => ThrownError (new_Error (js "Backend is not responding")))).
Qed.

(** X1. Whatever the network does, each of the four calls of [APIService]
    ends in one of two ways: the body of the 2xx response, handed on
    unchanged, or a thrown [Error] object. The axios error itself never
    reaches the caller. What the three GET calls throw is always a plain
    [Error] with a non-empty message; a plain [Error] thrown by [verify] has a
    non-empty message too. *)
Theorem api_outcomes
        (baseURL claimId : jsstring) (req : VerifyRequest.t) (net : network) :
  match net EVerify (post_verify baseURL req) with
  | Fulfilled d => result_of net (APIService.verify baseURL req) = Returned d
  | Rejected _ =>
      exists e, result_of net (APIService.verify baseURL req) = Raised (ThrownError e)
                /\ (name e = Error_ -> message e <> [])
  end
  /\ match net EClaimStatus
           (get_request (baseURL ++ js "/claims/" ++ claimId ++ js "/status")) with
     | Fulfilled d => result_of net (APIService.getClaimStatus baseURL claimId) = Returned d
     | Rejected _ =>
         exists e, result_of net (APIService.getClaimStatus baseURL claimId)
                   = Raised (ThrownError e)
                   /\ name e = Error_ /\ message e <> []
     end
  /\ match net EClaim (get_request (baseURL ++ js "/claims/" ++ claimId)) with
     | Fulfilled d => result_of net (APIService.getClaim baseURL claimId) = Returned d
     | Rejected _ =>
         exists e, result_of net (APIService.getClaim baseURL claimId)
                   = Raised (ThrownError e)
                   /\ name e = Error_ /\ message e <> []
     end
  /\ match net EHealth (get_request (baseURL ++ js "/health")) with
     | Fulfilled d => result_of net (APIService.healthCheck baseURL) = Returned d
     | Rejected _ =>
         exists e, result_of net (APIService.healthCheck baseURL)
                   = Raised (ThrownError e)
                   /\ name e = Error_ /\ message e <> []
     end.
Proof.
  unfold result_of.
  rewrite verify_run, getClaimStatus_run, getClaim_run, healthCheck_run. cbn [snd].
  split; [| split; [| split]].
  - destruct (net EVerify _) as [d | error]; [reflexivity |].
    eexists. split; [reflexivity |].
    cbn. destruct (response error) as [r |].
    + destruct (data r) as [b |]; cbn.
      * intros _. apply or_default_nonempty. discriminate.
      * discriminate.
    + destruct (request error); cbn; intros _; discriminate.
  - destruct (net EClaimStatus _) as [d | error]; [reflexivity |].
    eexists. split; [reflexivity |]. split; [reflexivity |].
    apply or_default_nonempty. discriminate.
  - destruct (net EClaim _) as [d | error]; [reflexivity |].
    eexists. split; [reflexivity |]. split; [reflexivity |].
    apply or_default_nonempty. discriminate.
  - destruct (net EHealth _) as [d | error]; [reflexivity |].
    eexists. split; [reflexivity |]. split; [reflexivity |]. discriminate.
Qed.

(** X2. A non-2xx response whose body is [null] separates [verify] from the
    two lookups: [verify] reads [error.response.data.detail] unguarded and
    ends in a [TypeError], while [getClaimStatus] and [getClaim], which read
    it through optional chaining, end in their generic message. *)
Theorem null_body_failure
        (baseURL claimId : jsstring) (req : VerifyRequest.t)
        (net : network) (error : axios_error) (r : error_response) :
  rejects net EVerify error ->
  rejects net EClaimStatus error ->
  rejects net EClaim error ->
  response error = Some r ->
  data r = None ->
  (exists e, result_of net (APIService.verify baseURL req) = Raised (ThrownError e)
             /\ name e = TypeError_)
  /\ throws_Error net (APIService.getClaimStatus baseURL claimId)
                  (js "Failed to get claim status")
  /\ throws_Error net (APIService.getClaim baseURL claimId)
                  (js "Failed to get claim").
Proof.
  intros Hv Hs Hc Hr Hd.
  split; [| split].
  - rewrite (verify_rejected baseURL req Hv), Hr, Hd.
    eexists. split; reflexivity.
  - pose proof (getClaimStatus_rejected baseURL claimId Hs) as H.
    unfold optional_detail in H. cbn in H. now rewrite Hr, Hd in H.
  - pose proof (getClaim_rejected baseURL claimId Hc) as H.
    unfold optional_detail in H. cbn in H. now rewrite Hr, Hd in H.
Qed.

Lemma null_body_failure_witness :
  throws_Error (Samples.failing Samples.null_body_error)
               (APIService.getClaim Samples.base (js "c-1"))
               (js "Failed to get claim").
Proof.
  refine (proj2 (proj2 (@null_body_failure Samples.base (js "c-1")
                          (VerifyRequest.mk (js "The Earth is flat") None None)
                          (Samples.failing Samples.null_body_error)
                          Samples.null_body_error
                          {| status := 500; data := None |}
                          (fun _ => eq_refl) (fun _ => eq_refl) (fun _ => eq_refl)
                          eq_refl eq_refl))).
Defined.

(** X3. Each of [getClaimStatus], [getClaim] and [healthCheck] sends exactly
    one request whatever comes back: a GET to [baseURL/claims/{id}/status],
    [baseURL/claims/{id}] and [baseURL/health], with the id pasted in as it
    is, no body and no timeout. Of the four calls only [verify] bounds its
    waiting time. *)
Theorem get_requests
        (baseURL claimId : jsstring) (net : network) :
  requests (trace net (APIService.getClaimStatus baseURL claimId))
  = [get_request (baseURL ++ js "/claims/" ++ claimId ++ js "/status")]
  /\ requests (trace net (APIService.getClaim baseURL claimId))
     = [get_request (baseURL ++ js "/claims/" ++ claimId)]
  /\ requests (trace net (APIService.healthCheck baseURL))
     = [get_request (baseURL ++ js "/health")]
  /\ (forall rq,
         In rq (requests (trace net (APIService.getClaimStatus baseURL claimId))
                ++ requests (trace net (APIService.getClaim baseURL claimId))
                ++ requests (trace net (APIService.healthCheck baseURL))) ->
         method rq = GET /\ body rq = None /\ timeout rq = None).
Proof.
  unfold trace.
  rewrite getClaimStatus_run, getClaim_run, healthCheck_run. cbn [fst].
  split; [reflexivity |]. split; [reflexivity |]. split; [reflexivity |].
  intros rq [<- | [<- | [<- | []]]]; repeat split.
Qed.

(** X4. The claim id goes into the URL unescaped, so the two lookups can
    meet: [getClaim] on an id that ends in '/status' sends the very request
    [getClaimStatus] sends for the id without that ending. *)
Theorem lookup_urls_meet
        (baseURL claimId : jsstring) (net net' : network) :
  requests (trace net (APIService.getClaim baseURL (claimId ++ js "/status")))
  = requests (trace net' (APIService.getClaimStatus baseURL claimId)).
Proof.
  unfold trace. rewrite getClaim_run, getClaimStatus_run. cbn [fst].
  reflexivity.
Qed.

(* ------------------------------------------------------------------ *)
(** ** [InputScreen]: one press of the verify button, in full *)

Lemma verify_rethrown_message (error : thrown) (e : js_error) :
  verify_rethrown error = ThrownError e -> name e = Error_ -> message e <> [].
Proof.
  unfold verify_rethrown. intros H. injection H as <-.
  destruct (thrown_response error) as [r |].
  - destruct (data r) as [b |]; cbn.
    + intros _. apply or_default_nonempty. discriminate.
    + discriminate.
  - destruct (thrown_request error); cbn; intros _; discriminate.
Qed.

(** The whole run of [handleVerify] on a claim with text to send. *)
Lemma handleVerify_run (baseURL claim : jsstring) (net : network) :
  trim claim <> [] ->
  run net (InputScreen.handleVerify baseURL claim)
  = ([EvSetLoading true;
      EvAxios (post_verify baseURL (submission claim));
      match net EVerify (post_verify baseURL (submission claim)) with
      | Fulfilled d => EvNavigate (js "Result") d
      | Rejected error =>
          EvAlert (js "Error")
                  (or_default
                     (Some (thrown_message (verify_rethrown (ThrownAxios error))))
                     (js "Verification failed"))
      end;
      EvSetLoading false],
     Returned tt).
Proof.
  intros Hne. apply truthy_nonempty in Hne.
  unfold InputScreen.handleVerify. rewrite Hne. cbn [negb].
  unfold setLoading at 1. cbn [bind run].
  rewrite run_try_finally, run_try_catch, run_bind.
  fold (submission claim). rewrite verify_run.
  destruct (net EVerify (post_verify baseURL (submission claim))) as [d | error];
    reflexivity.
Qed.

(** X5. [handleVerify] never throws: for every claim and whatever the network
    does, the promise it returns is fulfilled. A failed verification ends in
    an alert, not in a rejection. *)
Theorem handleVerify_never_throws (baseURL claim : jsstring) (net : network) :
  result_of net (InputScreen.handleVerify baseURL claim) = Returned tt.
Proof.
  unfold result_of.
  destruct (jsstring_eq_dec (trim claim) []) as [E | E].
  - unfold InputScreen.handleVerify. now rewrite E.
  - now rewrite (@handleVerify_run baseURL claim net E).
Qed.

(** X6. When the POST is rejected and [verify] throws [Error(msg)],
    [handleVerify] shows exactly that message in an alert titled 'Error',
    between raising and lowering the loading flag, and does not navigate. The
    handler's own fallback text never replaces what [verify] reported. *)
Theorem handleVerify_failure
        (baseURL claim msg : jsstring) (net : network) (error : axios_error) :
  trim claim <> [] ->
  rejects net EVerify error ->
  throws_Error net (APIService.verify baseURL (submission claim)) msg ->
  trace net (InputScreen.handleVerify baseURL claim)
  = [EvSetLoading true;
     EvAxios (post_verify baseURL (submission claim));
     EvAlert (js "Error") msg;
     EvSetLoading false]
  /\ destinations (trace net (InputScreen.handleVerify baseURL claim)) = [].
Proof.
  intros Hne Hrej Hthrow.
  unfold throws_Error, result_of in Hthrow.
  rewrite verify_run, Hrej in Hthrow. cbn [snd] in Hthrow.
  assert (Hthrown : verify_rethrown (ThrownAxios error) = ThrownError (new_Error msg))
    by congruence.
  pose proof (@verify_rethrown_message _ _ Hthrown eq_refl) as Hmsg.
  cbn [message new_Error] in Hmsg.
  unfold trace. rewrite (@handleVerify_run baseURL claim net Hne), Hrej, Hthrown.
  cbn [fst thrown_message message new_Error].
  rewrite (or_default_present _ Hmsg). split; reflexivity.
Qed.

Lemma handleVerify_failure_witness :
  trace (Samples.failing Samples.connection_lost)
        (InputScreen.handleVerify Samples.base (js "The Earth is flat"))
  = [EvSetLoading true;
     EvAxios (post_verify Samples.base (submission (js "The Earth is flat")));
     EvAlert (js "Error") (js "Network error - please check your connection");
     EvSetLoading false].
Proof.
  refine (proj1 (@handleVerify_failure Samples.base (js "The Earth is flat")
                   (js "Network error - please check your connection")
                   (Samples.failing Samples.connection_lost)
                   Samples.connection_lost _ (fun _ => eq_refl) _)).
  - vm_compute. discriminate.
  - reflexivity.
Defined.

(** X7. For an empty or whitespace-only claim [handleVerify] does one thing:
    it shows the alert 'Please enter a claim'. It sends nothing, leaves the
    loading flag alone and does not navigate. *)
Theorem handleVerify_blank_claim (baseURL claim : jsstring) (net : network) :
  whitespace_only claim = true ->
  run net (InputScreen.handleVerify baseURL claim)
  = ([EvAlert (js "Error") (js "Please enter a claim")], Returned tt).
Proof.
  intros Hw. unfold InputScreen.handleVerify.
  now rewrite (trim_whitespace_only _ Hw).
Qed.

Lemma handleVerify_blank_claim_witness :
  run (Samples.serving Samples.flat_earth)
      (InputScreen.handleVerify Samples.base (js "   "))
  = ([EvAlert (js "Error") (js "Please enter a claim")], Returned tt).
Proof.
  apply handleVerify_blank_claim. reflexivity.
Defined.

(* ------------------------------------------------------------------ *)
(** ** [InputScreen]: sessions *)

Section Sessions.

Variable baseURL : jsstring.
Variable textInput_limit : nat -> jsstring -> jsstring -> jsstring.

Let step := InputScreen.step baseURL textInput_limit.
Let session := InputScreen.session baseURL textInput_limit.

Lemma verifyButton_enabled (s : InputScreen.state) :
  InputScreen.verifyButton_disabled s = false ->
  trim (InputScreen.claim s) <> [] /\ InputScreen.loading s = false.
Proof.
  unfold InputScreen.verifyButton_disabled. intros H.
  apply orb_false_iff in H. destruct H as [Ht Hl].
  apply negb_false_iff in Ht. split; [now apply truthy_nonempty | exact Hl].
Qed.

(** An enabled press runs [handleVerify] to its end. *)
Lemma step_press (s : InputScreen.state) (net : network) :
  InputScreen.verifyButton_disabled s = false ->
  step s (InputScreen.PressVerify net)
  = (s,
     [EvSetLoading true;
      EvAxios (post_verify baseURL (submission (InputScreen.claim s)));
      match net EVerify (post_verify baseURL (submission (InputScreen.claim s))) with
      | Fulfilled d => EvNavigate (js "Result") d
      | Rejected error =>
          EvAlert (js "Error")
                  (or_default
                     (Some (thrown_message (verify_rethrown (ThrownAxios error))))
                     (js "Verification failed"))
      end;
      EvSetLoading false]).
Proof.
  intros Hen. destruct (verifyButton_enabled s Hen) as [Hne Hl].
  unfold step, InputScreen.step. rewrite Hen.
  unfold trace. rewrite (@handleVerify_run baseURL (InputScreen.claim s) net Hne).
  cbn [fst]. f_equal.
  destruct s as [c l]. cbn in Hl. subst l.
  destruct (net EVerify _); reflexivity.
Qed.

Lemma step_loading (s : InputScreen.state) (a : InputScreen.action) :
  InputScreen.loading s = false ->
  InputScreen.loading (fst (step s a)) = false.
Proof.
  intros Hl. destruct a as [attempted | net |].
  - unfold step. cbn. now destruct (InputScreen.textInput_editable s).
  - destruct (InputScreen.verifyButton_disabled s) eqn:Hd.
    + unfold step. cbn. now rewrite Hd.
    + now rewrite (step_press s net Hd).
  - unfold step. cbn. now destruct (InputScreen.clearButton_rendered s).
Qed.

Lemma session_loading (actions : list InputScreen.action) :
  forall s, InputScreen.loading s = false ->
            InputScreen.loading (fst (session s actions)) = false.
Proof.
  unfold session.
  induction actions as [| a rest IH]; intros s Hl; cbn [InputScreen.session];
    [exact Hl |].
  pose proof (step_loading s a Hl) as Hl1. unfold step in Hl1.
  destruct (InputScreen.step baseURL textInput_limit s a) as [s1 tr1].
  specialize (IH s1 Hl1).
  now destruct (InputScreen.session baseURL textInput_limit s1 rest) as [s2 tr2].
Qed.

Lemma count_app (kind : event -> bool) (tr1 tr2 : list event) :
  count kind (tr1 ++ tr2) = (count kind tr1 + count kind tr2)%nat.
Proof.
  unfold count. now rewrite filter_app, length_app.
Qed.

Lemma step_counts (s : InputScreen.state) (a : InputScreen.action) :
  count is_request (snd (step s a))
  = (count is_alert (snd (step s a)) + count is_navigation (snd (step s a)))%nat
  /\ (count is_request (snd (step s a)) <= if is_PressVerify a then 1 else 0)%nat.
Proof.
  destruct a as [attempted | net |].
  - unfold step. cbn. destruct (InputScreen.textInput_editable s); cbn; split; lia.
  - destruct (InputScreen.verifyButton_disabled s) eqn:Hd.
    + unfold step. cbn. rewrite Hd. cbn. split; lia.
    + rewrite (step_press s net Hd). cbn [snd].
      destruct (net EVerify _); cbn; split; lia.
  - unfold step. cbn. destruct (InputScreen.clearButton_rendered s); cbn; split; lia.
Qed.

Lemma session_counts (actions : list InputScreen.action) :
  forall s,
    count is_request (snd (session s actions))
    = (count is_alert (snd (session s actions))
       + count is_navigation (snd (session s actions)))%nat
    /\ (count is_request (snd (session s actions))
        <= List.length (filter is_PressVerify actions))%nat.
Proof.
  unfold session.
  induction actions as [| a rest IH]; intros s; cbn [InputScreen.session filter].
  - cbn. split; lia.
  - pose proof (step_counts s a) as [Heq Hle]. unfold step in Heq, Hle.
    destruct (InputScreen.step baseURL textInput_limit s a) as [s1 tr1].
    specialize (IH s1).
    destruct (InputScreen.session baseURL textInput_limit s1 rest) as [s2 tr2].
    cbn [snd] in *. rewrite !count_app. destruct IH as [IHeq IHle].
    split; [lia |].
    destruct (is_PressVerify a); cbn [List.length]; lia.
Qed.

Lemma destinations_app (tr1 tr2 : list event) :
  destinations (tr1 ++ tr2) = destinations tr1 ++ destinations tr2.
Proof.
  unfold destinations. apply flat_map_app.
Qed.

Lemma step_destinations (s : InputScreen.state) (a : InputScreen.action) (screen : jsstring) :
  In screen (destinations (snd (step s a))) -> screen = js "Result".
Proof.
  destruct a as [attempted | net |].
  - unfold step. cbn. destruct (InputScreen.textInput_editable s); intros [].
  - destruct (InputScreen.verifyButton_disabled s) eqn:Hd.
    + unfold step. cbn. rewrite Hd. intros [].
    + rewrite (step_press s net Hd). cbn [snd].
      destruct (net EVerify _); cbn; [intros [<- | []]; reflexivity | intros []].
  - unfold step. cbn. destruct (InputScreen.clearButton_rendered s); intros [].
Qed.

Lemma session_destinations (actions : list InputScreen.action) :
  forall s screen,
    In screen (destinations (snd (session s actions))) -> screen = js "Result".
Proof.
  unfold session.
  induction actions as [| a rest IH]; intros s screen; cbn [InputScreen.session];
    [intros [] |].
  pose proof (step_destinations s a screen) as Hstep. unfold step in Hstep.
  destruct (InputScreen.step baseURL textInput_limit s a) as [s1 tr1].
  specialize (IH s1 screen).
  destruct (InputScreen.session baseURL textInput_limit s1 rest) as [s2 tr2].
  cbn [snd] in *. rewrite destinations_app, in_app_iff.
  intros [H | H]; auto.
Qed.

End Sessions.

(** What a press on the result screen can cause. *)
Lemma openURL_cases (linking : jsstring -> bool) (url : jsstring)
      (eff : ResultScreen.effect) :
  In eff (ResultScreen.openURL linking url) ->
  eff = ResultScreen.LinkingOpenURL url
  \/ (eff = ResultScreen.ConsoleError (js "Failed to open URL:") url
      /\ linking url = false).
Proof.
  unfold ResultScreen.openURL. intros [<- | H]; [now left |].
  destruct (linking url) eqn:E; [destruct H |].
  destruct H as [<- | []]. right. now split.
Qed.

Lemma onPress_cases (result : VerificationResult.t) (linking : jsstring -> bool)
      (p : ResultScreen.press) (eff : ResultScreen.effect) :
  In eff (ResultScreen.onPress result linking p) ->
  (exists url,
      (In url (map Evidence.url (VerificationResult.evidence result))
       \/ In url (map Source.url (VerificationResult.sources result)))
      /\ (eff = ResultScreen.LinkingOpenURL url
          \/ (eff = ResultScreen.ConsoleError (js "Failed to open URL:") url
              /\ linking url = false)))
  \/ eff = ResultScreen.NavigationNavigate (js "Input").
Proof.
  destruct p as [index | index |]; unfold ResultScreen.onPress.
  - destruct (ResultScreen.evidence_rendered result); [| intros []].
    destruct (nth_error (VerificationResult.evidence result) index) as [evidence |] eqn:E;
      [| intros []].
    intros H. left. exists (Evidence.url evidence). split.
    + left. apply in_map. now apply nth_error_In in E.
    + now apply openURL_cases.
  - destruct (ResultScreen.sources_rendered result); [| intros []].
    destruct (nth_error (VerificationResult.sources result) index) as [source |] eqn:E;
      [| intros []].
    intros H. left. exists (Source.url source). split.
    + right. apply in_map. now apply nth_error_In in E.
    + now apply openURL_cases.
  - intros [<- | []]. now right.
Qed.

(** X8. A press on the enabled verify button leaves the screen as it found
    it: once [handleVerify] has run, on success as on failure, the typed text
    is still there and the loading flag is down again. So after any sequence
    of user actions the screen is not loading. *)
Theorem loading_restored
        (baseURL : jsstring)
        (textInput_limit : nat -> jsstring -> jsstring -> jsstring) :
  (forall (s : InputScreen.state) (net : network),
      InputScreen.loading s = false ->
      fst (InputScreen.step baseURL textInput_limit s (InputScreen.PressVerify net)) = s)
  /\ (forall actions : list InputScreen.action,
         InputScreen.loading
           (fst (InputScreen.session baseURL textInput_limit InputScreen.initial actions))
         = false).
Proof.
  split.
  - intros s net Hl.
    destruct (InputScreen.verifyButton_disabled s) eqn:Hd.
    + cbn. now rewrite Hd.
    + now rewrite (step_press baseURL textInput_limit s net Hd).
  - intros actions. now apply session_loading.
Qed.

Lemma loading_restored_witness :
  fst (InputScreen.step Samples.base Samples.truncating
         {| InputScreen.claim := js "The Earth is flat"; InputScreen.loading := false |}
         (InputScreen.PressVerify (Samples.failing Samples.connection_lost)))
  = {| InputScreen.claim := js "The Earth is flat"; InputScreen.loading := false |}.
Proof.
  apply (proj1 (loading_restored Samples.base Samples.truncating)). reflexivity.
Defined.

(** X9. While the loading flag is up the screen is inert: the text field is
    not editable, the verify button is disabled and the clear button is not
    rendered, so no user action changes the state or sends a second request. *)
Theorem inert_while_loading
        (baseURL : jsstring)
        (textInput_limit : nat -> jsstring -> jsstring -> jsstring)
        (s : InputScreen.state) (a : InputScreen.action) :
  InputScreen.loading s = true ->
  InputScreen.step baseURL textInput_limit s a = (s, []).
Proof.
  intros Hl. destruct a as [attempted | net |]; cbn.
  - unfold InputScreen.textInput_editable. now rewrite Hl.
  - unfold InputScreen.verifyButton_disabled. rewrite Hl.
    now rewrite orb_true_r.
  - unfold InputScreen.clearButton_rendered. rewrite Hl.
    now rewrite andb_false_r.
Qed.

Lemma inert_while_loading_witness :
  InputScreen.step Samples.base Samples.truncating
    {| InputScreen.claim := js "The Earth is flat"; InputScreen.loading := true |}
    (InputScreen.PressVerify (Samples.serving Samples.flat_earth))
  = ({| InputScreen.claim := js "The Earth is flat"; InputScreen.loading := true |}, []).
Proof.
  apply inert_while_loading. reflexivity.
Defined.

(** X10. In any session on the input screen every request is answered by
    exactly one visible outcome, an alert or a navigation, and there are no
    alerts besides: requests = alerts + navigations. The 'Please enter a
    claim' alert of [handleVerify] is among none of them, the disabled button
    keeps blank claims away from it. And there is at most one request per
    press of the verify button: nothing is retried. *)
Theorem session_outcomes
        (baseURL : jsstring)
        (textInput_limit : nat -> jsstring -> jsstring -> jsstring)
        (s : InputScreen.state) (actions : list InputScreen.action) :
  count is_request (snd (InputScreen.session baseURL textInput_limit s actions))
  = (count is_alert (snd (InputScreen.session baseURL textInput_limit s actions))
     + count is_navigation (snd (InputScreen.session baseURL textInput_limit s actions)))%nat
  /\ (count is_request (snd (InputScreen.session baseURL textInput_limit s actions))
      <= List.length (filter is_PressVerify actions))%nat.
Proof.
  apply session_counts.
Qed.

(** X11. Every screen the app navigates to is registered in the navigator of
    [App]: the input screen only ever navigates to 'Result', the result
    screen only to 'Input', both are [Stack.Screen] names, and so is the
    initial route. *)
Theorem navigation_targets_registered
        (baseURL : jsstring)
        (textInput_limit : nat -> jsstring -> jsstring -> jsstring) :
  In App.initialRouteName App.screens
  /\ (forall (s : InputScreen.state) (actions : list InputScreen.action) (screen : jsstring),
         In screen (destinations
                      (snd (InputScreen.session baseURL textInput_limit s actions))) ->
         screen = js "Result" /\ In screen App.screens)
  /\ (forall (result : VerificationResult.t) (linking : jsstring -> bool)
             (presses : list ResultScreen.press) (screen : jsstring),
         In (ResultScreen.NavigationNavigate screen)
            (flat_map (ResultScreen.onPress result linking) presses) ->
         screen = js "Input" /\ In screen App.screens).
Proof.
  split; [now left |]. split.
  - intros s actions screen Hin.
    rewrite (session_destinations baseURL textInput_limit actions s screen Hin).
    split; [reflexivity | right; now left].
  - intros result linking presses screen Hin.
    apply in_flat_map in Hin. destruct Hin as (p & _ & Hin).
    destruct (onPress_cases result linking p _ Hin)
      as [(url & _ & [H | [H _]]) | H]; try discriminate H.
    injection H as ->. split; [reflexivity | now left].
Qed.

(** X12. Whenever the verify button is enabled the clear button is on screen
    too; the converse fails for text made of whitespace only, which can be
    cleared but not sent. *)
Theorem button_availability (s : InputScreen.state) :
  (InputScreen.verifyButton_disabled s = false ->
   InputScreen.clearButton_rendered s = true)
  /\ (InputScreen.loading s = false ->
      InputScreen.claim s <> [] ->
      whitespace_only (InputScreen.claim s) = true ->
      InputScreen.clearButton_rendered s = true
      /\ InputScreen.verifyButton_disabled s = true).
Proof.
  unfold InputScreen.verifyButton_disabled, InputScreen.clearButton_rendered.
  split.
  - intros H. apply orb_false_iff in H. destruct H as [Ht ->].
    apply negb_false_iff, truthy_nonempty in Ht.
    destruct (InputScreen.claim s) as [| c rest] eqn:E; [| reflexivity].
    exfalso. apply Ht. reflexivity.
  - intros -> Hne Hw. rewrite (trim_whitespace_only _ Hw).
    apply truthy_nonempty in Hne. now rewrite Hne.
Qed.

Lemma button_availability_witness :
  InputScreen.clearButton_rendered
    {| InputScreen.claim := js "   "; InputScreen.loading := false |} = true
  /\ InputScreen.verifyButton_disabled
       {| InputScreen.claim := js "   "; InputScreen.loading := false |} = true.
Proof.
  apply (proj2 (button_availability
                  {| InputScreen.claim := js "   "; InputScreen.loading := false |}));
    [reflexivity | discriminate | reflexivity].
Defined.

(** X13. Under the [maxLength] contract of the text field, the text held by
    the screen never exceeds 2000 code units, whatever the user does: the
    counter '{claim.length} / 2000' never shows more than 2000. *)
Theorem field_within_limit
        (baseURL : jsstring)
        (textInput_limit : nat -> jsstring -> jsstring -> jsstring)
        (actions : list InputScreen.action) :
  (forall m current attempted,
      (List.length (textInput_limit m current attempted) <= m)%nat) ->
  (List.length
     (InputScreen.claim
        (fst (InputScreen.session baseURL textInput_limit InputScreen.initial actions)))
   <= 2000)%nat.
Proof.
  intros Hlimit.
  assert (H : forall s, within_limit s ->
                        within_limit (fst (InputScreen.session baseURL textInput_limit
                                             s actions))).
  { induction actions as [| a rest IH]; intros s Hs; cbn [InputScreen.session];
      [exact Hs |].
    pose proof (@step_within_limit baseURL textInput_limit Hlimit s a Hs) as Hs1.
    destruct (InputScreen.step baseURL textInput_limit s a) as [s1 tr1].
    specialize (IH s1 Hs1).
    now destruct (InputScreen.session baseURL textInput_limit s1 rest) as [s2 tr2]. }
  apply H. unfold within_limit, InputScreen.textInput_maxLength. cbn. lia.
Qed.

Lemma field_within_limit_witness :
  (List.length
     (InputScreen.claim
        (fst (InputScreen.session Samples.base Samples.truncating InputScreen.initial
                [InputScreen.ChangeText (repeat 97%N 2500)])))
   <= 2000)%nat.
Proof.
  apply field_within_limit.
  intros m current attempted. apply firstn_le_length.
Defined.

(* ------------------------------------------------------------------ *)
(** ** What [trim] leaves *)

Lemma trimStart_split (s : jsstring) :
  exists lead, s = lead ++ trimStart s /\ whitespace_only lead = true.
Proof.
  induction s as [| c rest (lead & IH & Hw)]; cbn.
  - exists []. now split.
  - destruct (is_whitespace c) eqn:Hc.
    + exists (c :: lead). split; [cbn; now f_equal |].
      unfold whitespace_only in *. cbn. now rewrite Hc.
    + exists []. now split.
Qed.

Lemma trimEnd_split (s : jsstring) :
  exists trail, s = trimEnd s ++ trail /\ whitespace_only trail = true.
Proof.
  destruct (trimStart_split (rev s)) as (lead & E & Hw).
  exists (rev lead). split.
  - unfold trimEnd. rewrite <- rev_app_distr, <- E. now rewrite rev_involutive.
  - now rewrite whitespace_only_rev.
Qed.

Lemma trimStart_fixed (s : jsstring) :
  (forall c rest, s = c :: rest -> is_whitespace c = false) -> trimStart s = s.
Proof.
  destruct s as [| c rest]; [reflexivity |].
  intros H. cbn. now rewrite (H c rest eq_refl).
Qed.

Lemma trimStart_idempotent (s : jsstring) : trimStart (trimStart s) = trimStart s.
Proof.
  apply trimStart_fixed. intros c rest E. exact (@trimStart_head s c rest E).
Qed.

Lemma trim_first (s : jsstring) (c : N) (rest : jsstring) :
  trim s = c :: rest -> is_whitespace c = false.
Proof.
  intros E. destruct (trimEnd_split (trimStart s)) as (trail & Hs & _).
  fold (trim s) in Hs. rewrite E in Hs. cbn in Hs.
  exact (trimStart_head _ Hs).
Qed.

Lemma trim_last (s : jsstring) (init : jsstring) (c : N) :
  trim s = init ++ [c] -> is_whitespace c = false.
Proof.
  unfold trim, trimEnd. intros E.
  apply (f_equal (@rev N)) in E.
  rewrite rev_involutive, rev_app_distr in E. cbn in E.
  exact (trimStart_head _ E).
Qed.

Lemma trim_idempotent (s : jsstring) : trim (trim s) = trim s.
Proof.
  assert (H : trimStart (trim s) = trim s).
  { apply trimStart_fixed. intros c rest E. exact (@trim_first s c rest E). }
  unfold trim at 1. rewrite H.
  unfold trim, trimEnd. rewrite rev_involutive.
  now rewrite trimStart_idempotent.
Qed.

(** X14. The claim [handleVerify] sends is the typed text with whitespace
    removed at its two ends and nothing else changed: the typed text is
    leading whitespace, the sent claim, trailing whitespace. The sent claim
    starts and ends with a character that is not whitespace, and trimming it
    again changes nothing. *)
Theorem sent_claim_is_trimmed
        (baseURL claim : jsstring) (net : network) (rq : axios_request) :
  In rq (requests (trace net (InputScreen.handleVerify baseURL claim))) ->
  exists sent lead trail,
    body rq = Some {| VerifyRequest.claim := sent;
                      VerifyRequest.language := Some (js "en-US");
                      VerifyRequest.media_url := None |}
    /\ claim = lead ++ sent ++ trail
    /\ whitespace_only lead = true
    /\ whitespace_only trail = true
    /\ (forall c rest, sent = c :: rest -> is_whitespace c = false)
    /\ (forall init c, sent = init ++ [c] -> is_whitespace c = false)
    /\ trim sent = sent.
Proof.
  intros Hin.
  destruct (handleVerify_sends _ _ _ _ Hin) as (_ & _ & _ & _ & Hbody).
  destruct (trimStart_split claim) as (lead & Hlead & Hwl).
  destruct (trimEnd_split (trimStart claim)) as (trail & Htrail & Hwt).
  fold (trim claim) in Htrail.
  exists (trim claim), lead, trail.
  split; [exact Hbody |].
  split; [now rewrite <- Htrail |].
  split; [exact Hwl |]. split; [exact Hwt |].
  split; [intros c rest E; exact (@trim_first claim c rest E) |].
  split; [intros init c E; exact (@trim_last claim init c E) |].
  apply trim_idempotent.
Qed.

Lemma sent_claim_is_trimmed_witness :
  exists sent lead trail,
    body (post_verify Samples.base (submission (js "  The Earth is flat ")))
    = Some {| VerifyRequest.claim := sent;
              VerifyRequest.language := Some (js "en-US");
              VerifyRequest.media_url := None |}
    /\ js "  The Earth is flat " = lead ++ sent ++ trail
    /\ whitespace_only lead = true
    /\ whitespace_only trail = true
    /\ (forall c rest, sent = c :: rest -> is_whitespace c = false)
    /\ (forall init c, sent = init ++ [c] -> is_whitespace c = false)
    /\ trim sent = sent.
Proof.
  apply (@sent_claim_is_trimmed Samples.base (js "  The Earth is flat ")
           (Samples.serving Samples.flat_earth)).
  vm_compute. left. reflexivity.
Defined.

(* ------------------------------------------------------------------ *)
(** ** [ResultScreen] *)

(** X15. The header colour tells the verdict: two results get the same colour
    exactly when they have the same verdict. Each of the five verdicts has
    its own entry in [VERDICT_COLORS], so the fallback of [getVerdictColor]
    is never used for them; that fallback is the grey of UNVERIFIED. *)
Theorem verdict_colours (result other : VerificationResult.t) :
  (ResultScreen.getVerdictColor result = ResultScreen.getVerdictColor other
   <-> VerificationResult.verdict result = VerificationResult.verdict other)
  /\ ResultScreen.property Constants.VERDICT_COLORS
       (ResultScreen.Verdict_name (VerificationResult.verdict result))
     = Some (ResultScreen.getVerdictColor result)
  /\ (VerificationResult.verdict result = UNVERIFIED ->
      ResultScreen.getVerdictColor result = js "#6b7280").
Proof.
  unfold ResultScreen.getVerdictColor.
  split; [| split].
  - split.
    + destruct (VerificationResult.verdict result),
               (VerificationResult.verdict other);
        intros H; try reflexivity; vm_compute in H; discriminate H.
    + now intros ->.
  - destruct (VerificationResult.verdict result); reflexivity.
  - now intros ->.
Qed.

Lemma verdict_colours_witness :
  ResultScreen.getVerdictColor Samples.flat_earth
  = ResultScreen.getVerdictColor (Samples.with_confidence 0.2%float).
Proof.
  apply (proj1 (verdict_colours Samples.flat_earth (Samples.with_confidence 0.2%float))).
  reflexivity.
Defined.

(** X16. The result screen opens no URL of its own making: every URL handed
    to [Linking.openURL] is the [url] of an evidence item or of a source of
    the result on display. A failure to open is logged with that URL under
    'Failed to open URL:' and goes no further, and the only navigation is to
    'Input'. *)
Theorem result_screen_effects
        (result : VerificationResult.t) (linking : jsstring -> bool)
        (presses : list ResultScreen.press) (eff : ResultScreen.effect) :
  In eff (flat_map (ResultScreen.onPress result linking) presses) ->
  (forall url, eff = ResultScreen.LinkingOpenURL url ->
               In url (map Evidence.url (VerificationResult.evidence result))
               \/ In url (map Source.url (VerificationResult.sources result)))
  /\ (forall msg url, eff = ResultScreen.ConsoleError msg url ->
                      msg = js "Failed to open URL:"
                      /\ linking url = false
                      /\ (In url (map Evidence.url (VerificationResult.evidence result))
                          \/ In url (map Source.url (VerificationResult.sources result))))
  /\ (forall screen, eff = ResultScreen.NavigationNavigate screen -> screen = js "Input").
Proof.
  intros Hin. apply in_flat_map in Hin. destruct Hin as (p & _ & Hin).
  destruct (onPress_cases result linking p _ Hin)
    as [(url & Hurl & [-> | [-> Hl]]) | ->].
  - split; [| split].
    + intros url' H. now injection H as <-.
    + intros msg url' H. discriminate H.
    + intros screen H. discriminate H.
  - split; [| split].
    + intros url' H. discriminate H.
    + intros msg url' H. injection H as <- <-. now repeat split.
    + intros screen H. discriminate H.
  - split; [| split].
    + intros url' H. discriminate H.
    + intros msg url' H. discriminate H.
    + intros screen H. now injection H as <-.
Qed.

Lemma result_screen_effects_witness :
  In (js "https://example.org/globe")
     (map Evidence.url (VerificationResult.evidence Samples.cited))
  \/ In (js "https://example.org/globe")
        (map Source.url (VerificationResult.sources Samples.cited)).
Proof.
  refine (proj1 (@result_screen_effects Samples.cited (fun _ => false)
                   [ResultScreen.PressEvidenceLink 0; ResultScreen.PressNewVerification]
                   (ResultScreen.LinkingOpenURL (js "https://example.org/globe")) _)
                _ eq_refl).
  vm_compute. left. reflexivity.
Defined.
